(** * plotly.api.v1.utils: request helpers of the legacy (v1) API

    A shallow embedding of [src/plotly/api/v1/utils.py]
    ([validate_response], [basic_auth], [get_headers], [request]) and the
    properties its specification states about them.

    Python semantics are those of Python 3: [str] is a sequence of Unicode
    code points, [bytes] a sequence of octets, [six.b] encodes with
    Latin-1, and the truth value of a [requests.Response] is its [ok]. *)

From Stdlib Require Import ZArith NArith List Ascii String.
From Stdlib.Strings Require Import Byte.
From Stdlib Require Import Floats.PrimFloat.
From stdpp Require Import gmap list fin_maps.

Local Open Scope Z_scope.

(** ** Python values *)

Module Py.

(** A Python 3 [str]: a sequence of Unicode code points. *)
Abbreviation str := (list N) (only parsing).

(** A Python 3 [bytes] object. *)
Abbreviation bytes := (list byte) (only parsing).

(** The [str] written by an ASCII literal of the source, ['...']. *)
Definition s (lit : string) : str :=
  List.map N_of_ascii (list_ascii_of_string lit).

(** The [bytes] written by an ASCII literal, [b'...']. *)
Definition b (lit : string) : bytes := list_byte_of_string lit.

(** The values that flow through the module: what [response.json()]
    yields (JSON data), header values, error messages and the entries of
    [**kwargs].  Mappings have [str] keys. *)
#[warnings="-register-all"] Inductive val : Type :=
| None_
| Bool (x : bool)
| Int (n : Z)
| Float (f : float)
| Str (x : str)
| Bytes (x : bytes)
| List (xs : list val)
| Dict (d : gmap (list N) val).

(** [bool(v)], the truth value Python's [if v:] and [not v] test. *)
Definition truthy (v : val) : bool :=
  match v with
  | None_ => false
  | Bool x => x
  | Int n => negb (n =? 0)
  | Float f => negb (PrimFloat.eqb f 0%float)
  | Str x => match x with [] => false | _ => true end
  | Bytes x => match x with [] => false | _ => true end
  | List xs => match xs with [] => false | _ => true end
  | Dict d => match map_to_list d with [] => false | _ => true end
  end.

(** [d.get(key, fallback)] on a mapping. *)
Definition get (d : gmap (list N) val) (key : str) (fallback : val) : val :=
  match d !! key with
  | Some v => v
  | None => fallback
  end.

(** [getattr(obj, name, fallback)], for an attribute that is [Some v]
    when the object has it. *)
Definition getattr {A} (attribute : option A) (fallback : A) : A :=
  match attribute with
  | Some v => v
  | None => fallback
  end.

(** [v is not None]. *)
Definition is_not_None (v : val) : bool :=
  match v with None_ => false | _ => true end.

End Py.

(** ** Exceptions and results *)

(** Modelled from the spec: the exception classes of [plotly.exceptions]
    (not part of the sources).  [PlotlyError] is the usage error;
    [PlotlyRequestError] is the request error and stores the three
    arguments it is built from as [message], [status_code] (which may be
    [None]) and [content].  The other constructors are the exceptions of
    Python and of the transport that the module lets through. *)
Inductive exn : Type :=
| PlotlyError (message : Py.str)
| PlotlyRequestError (message : Py.val) (status_code : option Z)
                     (content : Py.val)
| UnicodeEncodeError
| TypeError
| ValueError
| OtherException (name : string).

(** The outcome of a call: a returned value or a raised exception. *)
Inductive result (A : Type) : Type :=
| Return (a : A)
| Raise (e : exn).
Arguments Return {A} a.
Arguments Raise {A} e.

Definition bind_result {A B} (r : result A) (k : A -> result B) : result B :=
  match r with
  | Return a => k a
  | Raise e => Raise e
  end.

(** ** Library functions used by the module *)

(** [six.b(s)] on Python 3 is [s.encode("latin-1")]: one octet per code
    point, and [UnicodeEncodeError] when a code point is above 255. *)
Fixpoint latin1_encode (x : Py.str) : option Py.bytes :=
  match x with
  | [] => Some []
  | c :: rest =>
      match Byte.of_N c, latin1_encode rest with
      | Some o, Some os => Some (o :: os)
      | _, _ => None
      end
  end.

Definition six_b (x : Py.str) : result Py.bytes :=
  match latin1_encode x with
  | Some bs => Return bs
  | None => Raise UnicodeEncodeError
  end.

(** [base64.b64encode]: the standard alphabet of RFC 4648 with padding. *)
Module Base64.

Definition alphabet : list byte := Py.b
  "ABCDEFGHIJKLMNOPQRSTUVWXYZabcdefghijklmnopqrstuvwxyz0123456789+/".

Definition pad : byte := "=".

(** The character of a 6-bit group. *)
Definition sextet (n : N) : byte :=
  nth (N.to_nat (N.land n 63)) alphabet pad.

(** The 24-bit group of three octets. *)
Definition group (x y z : byte) : N :=
  N.lor (N.shiftl (Byte.to_N x) 16)
        (N.lor (N.shiftl (Byte.to_N y) 8) (Byte.to_N z)).

Fixpoint b64encode (bs : list byte) : list byte :=
  match bs with
  | [] => []
  | [x] =>
      let g := group x "000" "000" in
      [sextet (N.shiftr g 18); sextet (N.shiftr g 12); pad; pad]
  | [x; y] =>
      let g := group x y "000" in
      [sextet (N.shiftr g 18); sextet (N.shiftr g 12);
       sextet (N.shiftr g 6); pad]
  | x :: y :: z :: rest =>
      let g := group x y z in
      sextet (N.shiftr g 18) :: sextet (N.shiftr g 12)
        :: sextet (N.shiftr g 6) :: sextet g :: b64encode rest
  end.

End Base64.

(** ** basic_auth *)

(** ['{}:{}'.format(username, password)] on two [str] arguments. *)
Definition format_auth (username password : Py.str) : Py.str :=
  username ++ Py.s ":" ++ password.

Definition basic_auth (username password : Py.str) : result Py.bytes :=
  let auth := format_auth username password in
  bind_result (six_b auth) (fun raw =>
  let encoded_auth := Base64.b64encode raw in
  bind_result (six_b (Py.s "Basic ")) (fun prefix =>
  Return (prefix ++ encoded_auth))).


(** ** The transport's objects *)

(** What a call of the method [response.json()] does: it returns the
    value the body parses to, raises [ValueError] (the body is no JSON), or
    raises some other exception (a [RecursionError] on a body nested too
    deeply, say). *)
Inductive json_outcome : Type :=
| JsonValue (v : Py.val)
| JsonValueError
| JsonRaises (name : string).

(** A [requests.Response], as far as the module reads it.  [json] is what
    the method [response.json()] does on it. *)
Record Response : Type := {
  ok : bool;
  status_code : Z;
  content : Py.bytes;
  json : json_outcome
}.

(** [bool(response)]: [requests.Response.__bool__] returns [self.ok]. *)
Definition response_truthy (response : Response) : bool := ok response.

(** A [requests.exceptions.RequestException] (or a subclass), as far as
    [getattr] reads it: the attribute [message], when the exception has
    one, and the attribute [response], [None] when it is missing or holds
    Python's [None]. *)
Record RequestException : Type := {
  exc_message : option Py.val;
  exc_response : option Response
}.

(** What a call of [requests.request] can do. *)
Inductive transport_outcome : Type :=
| Responds (response : Response)
| Fails (e : RequestException)
| FailsOtherwise (name : string).

(** ** validate_response *)

(** [content if content else 'No Content']. *)
Definition content_or_No_Content (content : Py.bytes) : Py.val :=
  if Py.truthy (Py.Bytes content) then Py.Bytes content
  else Py.Str (Py.s "No Content").

Definition validate_response (response : Response) : result unit :=
  if ok response then Return tt
  else
    let content := content response in
    let status_code := status_code response in
    match json response with
    | JsonRaises name => Raise (OtherException name)
    | JsonValueError =>
        let message := content_or_No_Content content in
        Raise (PlotlyRequestError message (Some status_code)
                                  (Py.Bytes content))
    | JsonValue parsed_content =>
        let message := Py.Str [] in
        let message :=
          match parsed_content with
          | Py.Dict d =>
              let error := Py.get d (Py.s "error") Py.None_ in
              if Py.truthy error then error else message
          | _ => message
          end in
        let message :=
          if negb (Py.truthy message) then content_or_No_Content content
          else message in
        Raise (PlotlyRequestError message (Some status_code)
                                  (Py.Bytes content))
    end.

(** ** Collaborators and their calls *)

(** Modelled from the spec: the mapping [config.get_credentials()]
    returns ([plotly.config] is not part of the sources); it has the keys
    [username], [password], [proxy_username] and [proxy_password], each a
    string. *)
Record Credentials : Type := {
  username : Py.str;
  password : Py.str;
  proxy_username : Py.str;
  proxy_password : Py.str
}.

(** Modelled from the spec: the mapping [config.get_config()] returns; it
    has the boolean key [plotly_proxy_authorization]. *)
Record Config : Type := {
  plotly_proxy_authorization : bool
}.

(** The calls the module makes on its collaborators, in the order made. *)
Inductive event : Type :=
| GetCredentials
| GetConfig
| TransportCall (method url : Py.str) (kwargs : gmap (list N) Py.val).

(** A computation that calls collaborators: it extends the log of calls
    made so far and returns or raises. *)
Definition io (A : Type) : Type := list event -> result A * list event.

Definition ret {A} (a : A) : io A := fun log => (Return a, log).

Definition raise {A} (e : exn) : io A := fun log => (Raise e, log).

Definition lift {A} (r : result A) : io A := fun log => (r, log).

Definition bind {A B} (m : io A) (k : A -> io B) : io B :=
  fun log =>
    match m log with
    | (Return a, log') => k a log'
    | (Raise e, log') => (Raise e, log')
    end.

Definition emit (ev : event) : io unit :=
  fun log => (Return tt, log ++ [ev]).

Declare Scope io_scope.
Delimit Scope io_scope with io.
Notation "x <- m ;; k" := (bind m (fun x => k))
  (at level 100, m at next level, right associativity) : io_scope.
Notation "m ;; k" := (bind m (fun _ => k))
  (at level 100, right associativity) : io_scope.

(** Running a computation from the empty log. *)
Definition run {A} (m : io A) : result A * list event := m [].

Definition outcome {A} (m : io A) : result A := fst (run m).

Definition calls {A} (m : io A) : list event := snd (run m).

(** The transport calls of a log. *)
Definition transport_calls (log : list event) : list event :=
  List.filter (fun ev => match ev with TransportCall _ _ _ => true
                                     | _ => false end) log.

Section Api.

(** The state of the credential and config storage, and the behaviour of
    the HTTP client. *)
Variable credentials : Credentials.
Variable config : Config.
Variable transport :
  Py.str -> Py.str -> gmap (list N) Py.val -> transport_outcome.

Local Open Scope io_scope.

Definition config_get_credentials : io Credentials :=
  emit GetCredentials ;; ret credentials.

Definition config_get_config : io Config :=
  emit GetConfig ;; ret config.

Definition requests_request (method url : Py.str)
    (kwargs : gmap (list N) Py.val) : io transport_outcome :=
  emit (TransportCall method url kwargs) ;;
  ret (transport method url kwargs).

(** *** get_headers *)

Definition get_headers : io (gmap (list N) Py.val) :=
  let headers : gmap (list N) Py.val :=
    {[ Py.s "content-type" := Py.Str (Py.s "application/json") ]} in
  creds <- config_get_credentials ;;
  proxy_auth <- lift (basic_auth (proxy_username creds)
                                 (proxy_password creds)) ;;
  cfg <- config_get_config ;;
  if plotly_proxy_authorization cfg
  then ret (<[ Py.s "authorization" := Py.Bytes proxy_auth ]> headers)
  else ret headers.

(** *** request *)

(** [kwargs.get('json', None) is not None]. *)
Definition json_given (kwargs : gmap (list N) Py.val) : bool :=
  Py.is_not_None (Py.get kwargs (Py.s "json") Py.None_).

(** The key and the value that [dict] takes from one item of an iterable:
    the item must itself iterate ([TypeError] otherwise) over exactly two
    elements ([ValueError] otherwise), the first of them hashable
    ([TypeError] for a list or a mapping).  A two-character [str] gives
    its characters.  Mappings of [Py.val] have [str] keys and no order, so
    an item whose key would be no [str] (a pair with another hashable key,
    two bytes) or that is itself a mapping of two keys is outside this
    model; it is given [TypeError]. *)
Definition pair_of (item : Py.val) : result (list N * Py.val) :=
  match item with
  | Py.None_ | Py.Bool _ | Py.Int _ | Py.Float _ => Raise TypeError
  | Py.Str x =>
      match x with
      | [a; b] => Return ([a], Py.Str [b])
      | _ => Raise ValueError
      end
  | Py.Bytes x =>
      match x with
      | [_; _] => Raise TypeError
      | _ => Raise ValueError
      end
  | Py.List xs =>
      match xs with
      | [k; v] =>
          match k with
          | Py.Str key => Return (key, v)
          | _ => Raise TypeError
          end
      | _ => Raise ValueError
      end
  | Py.Dict d =>
      match map_to_list d with
      | [_; _] => Raise TypeError
      | _ => Raise ValueError
      end
  end.

(** [d.update(items)] for a list of items, in order: a later item
    overwrites an earlier one of the same key, the first bad item
    raises. *)
Fixpoint update_from_pairs (items : list Py.val)
    (d : gmap (list N) Py.val) : result (gmap (list N) Py.val) :=
  match items with
  | [] => Return d
  | item :: rest =>
      match pair_of item with
      | Return (key, v) => update_from_pairs rest (<[ key := v ]> d)
      | Raise e => Raise e
      end
  end.

(** [dict(x, **assembled)] for the value [x] of [kwargs.get('headers',
    {})]: the entries of [x], then those of [assembled] written over
    them.  A mapping gives its entries.  Any other value is iterated: a
    list gives its items as pairs, a [str] its characters (none, or a
    [ValueError] on the first, which is no pair), a [bytes] its octets
    (none, or a [TypeError] on the first, which does not iterate), and
    [None], a boolean or a number does not iterate ([TypeError]). *)
Definition dict_update (x : Py.val) (assembled : gmap (list N) Py.val)
    : result (gmap (list N) Py.val) :=
  match x with
  | Py.Dict caller => Return (assembled ∪ caller)
  | Py.None_ | Py.Bool _ | Py.Int _ | Py.Float _ => Raise TypeError
  | Py.Str x =>
      match x with
      | [] => Return assembled
      | _ => Raise ValueError
      end
  | Py.Bytes x =>
      match x with
      | [] => Return assembled
      | _ => Raise TypeError
      end
  | Py.List items =>
      match update_from_pairs items ∅ with
      | Return caller => Return (assembled ∪ caller)
      | Raise e => Raise e
      end
  end.

Definition request (method url : Py.str)
    (kwargs : gmap (list N) Py.val) : io Response :=
  if json_given kwargs
  then raise (PlotlyError (Py.s "V1 API does not handle arbitrary json."))
  else
    assembled <- get_headers ;;
    headers <- lift (dict_update
                       (Py.get kwargs (Py.s "headers") (Py.Dict ∅))
                       assembled) ;;
    let kwargs := <[ Py.s "headers" := Py.Dict headers ]> kwargs in
    attempt <- requests_request method url kwargs ;;
    match attempt with
    | Responds response =>
        lift (validate_response response) ;;
        ret response
    | Fails e =>
        let message :=
          Py.getattr (exc_message e) (Py.Str (Py.s "No message")) in
        let response := exc_response e in
        let status_code :=
          match response with
          | Some r => if response_truthy r then Some (status_code r)
                      else None
          | None => None
          end in
        let content :=
          match response with
          | Some r => if response_truthy r then Py.Bytes (content r)
                      else Py.Str (Py.s "No content")
          | None => Py.Str (Py.s "No content")
          end in
        raise (PlotlyRequestError message status_code content)
    | FailsOtherwise name => raise (OtherException name)
    end.

End Api.

(** ** The specification's vocabulary *)

(** UTF-8, the encoding the specification names for [basic_auth]: one to
    four octets per code point, none for a surrogate or a code point above
    U+10FFFF. *)
Module Utf8.

Definition octet (n : N) : byte := default "000"%byte (Byte.of_N n).

Definition continuation (n : N) : byte :=
  octet (N.lor 128 (N.land n 63)).

Definition encode_code_point (c : N) : option (list byte) :=
  if (c <? 128)%N then Some [octet c]
  else if (c <? 2048)%N then
    Some [octet (N.lor 192 (N.shiftr c 6)); continuation c]
  else if (c <? 65536)%N then
    if ((55296 <=? c) && (c <=? 57343))%N then None
    else Some [octet (N.lor 224 (N.shiftr c 12));
               continuation (N.shiftr c 6); continuation c]
  else if (c <? 1114112)%N then
    Some [octet (N.lor 240 (N.shiftr c 18)); continuation (N.shiftr c 12);
          continuation (N.shiftr c 6); continuation c]
  else None.

Fixpoint encode (x : Py.str) : option Py.bytes :=
  match x with
  | [] => Some []
  | c :: rest =>
      match encode_code_point c, encode rest with
      | Some os, Some os' => Some (os ++ os')
      | _, _ => None
      end
  end.

End Utf8.

(** A populated JSON body in the words of the specification: the options
    have an entry [json] that is neither [None] nor empty. *)
Definition nonempty (v : Py.val) : bool :=
  match v with
  | Py.None_ => false
  | Py.Str x => match x with [] => false | _ => true end
  | Py.Bytes x => match x with [] => false | _ => true end
  | Py.List xs => match xs with [] => false | _ => true end
  | Py.Dict d => match map_to_list d with [] => false | _ => true end
  | _ => true
  end.

Definition json_body_populated (kwargs : gmap (list N) Py.val) : bool :=
  match kwargs !! Py.s "json" with
  | Some v => nonempty v
  | None => false
  end.


(** An exception of the usage-error kind: a [PlotlyError] proper. *)
Definition is_usage_error {A} (r : result A) : Prop :=
  exists message, r = Raise (PlotlyError message).

(** What [request] makes of the transport's outcome: the response when it
    validates, the error of [validate_response], the translation of a
    [RequestException], or any other exception as it is. *)
Definition settled (attempt : transport_outcome) : result Response :=
  match attempt with
  | Responds response =>
      match validate_response response with
      | Return _ => Return response
      | Raise e => Raise e
      end
  | Fails e =>
      Raise (PlotlyRequestError
               (Py.getattr (exc_message e) (Py.Str (Py.s "No message")))
               (match exc_response e with
                | Some r => if ok r then Some (status_code r) else None
                | None => None
                end)
               (match exc_response e with
                | Some r => if ok r then Py.Bytes (content r)
                            else Py.Str (Py.s "No content")
                | None => Py.Str (Py.s "No content")
                end))
  | FailsOtherwise name => Raise (OtherException name)
  end.

(** Two string literals differ. *)
Ltac str_neq := let H := fresh in intros H; vm_compute in H; discriminate H.

(** Equality of octets is decidable. *)
#[local] Instance byte_eq_dec : EqDecision byte := Byte.byte_eq_dec.

(** Quotient and remainder of [x] by the constant [d], as facts. *)
Ltac divmod x d :=
  pose proof (N.div_mod' x d);
  pose proof (N.mod_lt x d ltac:(discriminate)).

(** ** Sample collaborators

    A credential store, two responses and a few HTTP clients, used to run
    the functions on concrete inputs. *)
Module Demo.

Definition creds : Credentials := {|
  username := Py.s "alice";
  password := Py.s "secret";
  proxy_username := Py.s "proxy";
  proxy_password := Py.s "pw"
|}.

Definition proxy_on : Config := {| plotly_proxy_authorization := true |}.
Definition proxy_off : Config := {| plotly_proxy_authorization := false |}.

Definition dq : byte := x22.

(** The body [{"error":"not found"}]. *)
Definition not_found_body : Py.bytes :=
  Py.b "{" ++ dq :: Py.b "error" ++ dq :: Py.b ":" ++ dq
    :: Py.b "not found" ++ dq :: Py.b "}".

Definition not_found : Response := {|
  ok := false;
  status_code := 404;
  content := not_found_body;
  json := JsonValue
            (Py.Dict {[ Py.s "error" := Py.Str (Py.s "not found") ]})
|}.

(** A failed response whose body is no JSON. *)
Definition bad_gateway : Response := {|
  ok := false;
  status_code := 502;
  content := Py.b "Bad Gateway";
  json := JsonValueError
|}.

Definition success : Response := {|
  ok := true;
  status_code := 200;
  content := Py.b "[]";
  json := JsonValue (Py.List [])
|}.

(** Clients that answer every call the same way. *)
Definition answering (response : Response)
    : Py.str -> Py.str -> gmap (list N) Py.val -> transport_outcome :=
  fun _ _ _ => Responds response.

Definition failing (e : RequestException)
    : Py.str -> Py.str -> gmap (list N) Py.val -> transport_outcome :=
  fun _ _ _ => Fails e.

(** A connection failure: no message attribute, no response. *)
Definition connection_error : RequestException :=
  {| exc_message := None; exc_response := None |}.

(** An [HTTPError] carrying the response that caused it. *)
Definition http_error : RequestException :=
  {| exc_message := None; exc_response := Some bad_gateway |}.

Definition url : Py.str := Py.s "https://plot.ly/clientresp".


(** Credentials whose proxy password holds U+20AC, which Latin-1 lacks. *)
Definition creds_euro : Credentials := {|
  username := Py.s "alice";
  password := Py.s "secret";
  proxy_username := Py.s "proxy";
  proxy_password := [8364%N]
|}.

End Demo.

(** * Properties *)

(** ** Encodings *)

Example basic_auth_alice :
  basic_auth (Py.s "alice") (Py.s "secret")
  = Return (Py.b "Basic YWxpY2U6c2VjcmV0").
Proof. vm_compute. reflexivity. Qed.

Example b64encode_rfc4648 :
  List.map Base64.b64encode
    [[]; Py.b "f"; Py.b "fo"; Py.b "foo"; Py.b "foob"; Py.b "fooba";
     Py.b "foobar"]
  = [[]; Py.b "Zg=="; Py.b "Zm8="; Py.b "Zm9v"; Py.b "Zm9vYg==";
     Py.b "Zm9vYmE="; Py.b "Zm9vYmFy"].
Proof. vm_compute. reflexivity. Qed.

Lemma latin1_encode_total (x : Py.str) :
  Forall (fun c => (c < 256)%N) x ->
  exists raw, latin1_encode x = Some raw /\ List.map Byte.to_N raw = x.
Proof.
  induction 1 as [|c rest Hc _ [raw [Hraw Hmap]]]; simpl.
  - exists []. split; reflexivity.
  - destruct (Byte.of_N c) as [o|] eqn:Ho.
    + rewrite Hraw. exists (o :: raw). split; [reflexivity|].
      simpl. rewrite Hmap. f_equal. apply Byte.to_of_N. exact Ho.
    + apply Byte.of_N_None_iff in Ho. lia.
Qed.

Lemma latin1_encode_fails (x : Py.str) :
  Exists (fun c => (256 <= c)%N) x -> latin1_encode x = None.
Proof.
  induction 1 as [c rest Hc|c rest _ IH]; simpl.
  - assert (Byte.of_N c = None) as -> by (apply Byte.of_N_None_iff; lia).
    reflexivity.
  - rewrite IH. destruct (Byte.of_N c); reflexivity.
Qed.

Lemma utf8_encode_ascii (x : Py.str) :
  Forall (fun c => (c < 128)%N) x -> Utf8.encode x = latin1_encode x.
Proof.
  induction 1 as [|c rest Hc _ IH]; simpl; [reflexivity|].
  unfold Utf8.encode_code_point.
  apply N.ltb_lt in Hc as Hlt. rewrite Hlt. rewrite IH.
  unfold Utf8.octet.
  destruct (Byte.of_N c) as [o|] eqn:Ho.
  - destruct (latin1_encode rest); reflexivity.
  - apply Byte.of_N_None_iff in Ho. lia.
Qed.

Lemma six_b_Basic : six_b (Py.s "Basic ") = Return (Py.b "Basic ").
Proof. vm_compute. reflexivity. Qed.

Lemma basic_auth_unfold (u p : Py.str) :
  basic_auth u p =
  match latin1_encode (format_auth u p) with
  | Some raw => Return (Py.b "Basic " ++ Base64.b64encode raw)
  | None => Raise UnicodeEncodeError
  end.
Proof.
  unfold basic_auth, six_b at 1.
  destruct (latin1_encode (format_auth u p)); cbn [bind_result];
    [|reflexivity].
  rewrite six_b_Basic. reflexivity.
Qed.

Lemma Forall_format_auth (P : N -> Prop) (u p : Py.str) :
  P 58%N -> Forall P (u ++ p) -> Forall P (format_auth u p).
Proof.
  intros Hcolon H. apply Forall_app in H as [Hu Hp].
  unfold format_auth. apply Forall_app. split; [exact Hu|].
  apply Forall_app. split; [|exact Hp].
  repeat constructor. exact Hcolon.
Qed.

(** C9 (as amended): on strings whose code points are all below 256,
    [basic_auth] returns the bytes [Basic ] followed by the base64 encoding
    of one octet per code point of [username:password]; on ASCII strings
    those octets are the UTF-8 encoding. *)
Theorem basic_auth_latin1 (u p : Py.str) :
  Forall (fun c => (c < 256)%N) (u ++ p) ->
  exists raw,
    List.map Byte.to_N raw = format_auth u p /\
    basic_auth u p = Return (Py.b "Basic " ++ Base64.b64encode raw) /\
    (Forall (fun c => (c < 128)%N) (u ++ p) ->
     Utf8.encode (format_auth u p) = Some raw).
Proof.
  intros H.
  destruct (latin1_encode_total (format_auth u p)) as [raw [Hraw Hmap]].
  { apply Forall_format_auth; [lia | exact H]. }
  exists raw. split; [exact Hmap|]. split.
  - rewrite basic_auth_unfold, Hraw. reflexivity.
  - intros Hascii. rewrite utf8_encode_ascii; [exact Hraw|].
    apply Forall_format_auth; [lia | exact Hascii].
Qed.

Lemma basic_auth_latin1_witness :
  exists raw,
    List.map Byte.to_N raw = format_auth (Py.s "alice") (Py.s "secret") /\
    basic_auth (Py.s "alice") (Py.s "secret")
    = Return (Py.b "Basic " ++ Base64.b64encode raw) /\
    (Forall (fun c => (c < 128)%N) (Py.s "alice" ++ Py.s "secret") ->
     Utf8.encode (format_auth (Py.s "alice") (Py.s "secret")) = Some raw).
Proof.
  apply (basic_auth_latin1 (Py.s "alice") (Py.s "secret")).
  repeat constructor.
Defined.

(** C9 (as stated) fails: for the user name U+00E9 the code encodes the
    single octet E9, not the UTF-8 octets C3 A9, and for U+20AC, which has
    a UTF-8 encoding, it raises [UnicodeEncodeError]. *)
Lemma basic_auth_not_utf8 :
  (exists raw,
     Utf8.encode (format_auth [233%N] []) = Some raw /\
     basic_auth [233%N] []
     <> Return (Py.b "Basic " ++ Base64.b64encode raw)) /\
  (exists raw,
     Utf8.encode (format_auth [8364%N] []) = Some raw /\
     basic_auth [8364%N] [] = Raise UnicodeEncodeError).
Proof.
  split; eexists; (split; [vm_compute; reflexivity|]).
  - vm_compute. discriminate.
  - vm_compute. reflexivity.
Qed.

(** ** validate_response *)

(** C1: a failed response whose body parses to a mapping with a truthy
    [error] entry raises a [PlotlyRequestError] whose message is that
    entry, whose status code is the response's and whose content is the
    raw body. *)
Theorem validate_response_error_entry
    (response : Response) (d : gmap (list N) Py.val) (error : Py.val) :
  ok response = false ->
  json response = JsonValue (Py.Dict d) ->
  d !! Py.s "error" = Some error ->
  Py.truthy error = true ->
  validate_response response
  = Raise (PlotlyRequestError error (Some (status_code response))
                              (Py.Bytes (content response))).
Proof.
  intros Hok Hjson Herror Htruthy.
  unfold validate_response, Py.get. rewrite Hok, Hjson, Herror.
  cbv beta iota zeta. rewrite Htruthy. rewrite Htruthy. reflexivity.
Qed.

Lemma validate_response_error_entry_witness :
  validate_response Demo.not_found
  = Raise (PlotlyRequestError (Py.Str (Py.s "not found")) (Some 404)
                              (Py.Bytes Demo.not_found_body)).
Proof.
  apply (validate_response_error_entry Demo.not_found
           {[ Py.s "error" := Py.Str (Py.s "not found") ]}
           (Py.Str (Py.s "not found")));
    vm_compute; reflexivity.
Defined.




(** ** get_headers *)

(** What a call of [get_headers] does, from any log. *)
Lemma get_headers_run (credentials : Credentials) (config : Config)
    (log : list event) :
  get_headers credentials config log =
  match basic_auth (proxy_username credentials)
                   (proxy_password credentials) with
  | Return proxy_auth =>
      (Return
         (if plotly_proxy_authorization config
          then <[ Py.s "authorization" := Py.Bytes proxy_auth ]>
                 {[ Py.s "content-type"
                    := Py.Str (Py.s "application/json") ]}
          else {[ Py.s "content-type"
                  := Py.Str (Py.s "application/json") ]}),
       log ++ [GetCredentials; GetConfig])
  | Raise e => (Raise e, log ++ [GetCredentials])
  end.
Proof.
  unfold get_headers, config_get_credentials, config_get_config,
    bind, emit, ret, lift.
  destruct (basic_auth _ _) as [proxy_auth|e]; [|reflexivity].
  rewrite <- app_assoc. cbn [app].
  destruct (plotly_proxy_authorization config); reflexivity.
Qed.

(** C6: the mapping [get_headers] returns maps [content-type] to
    [application/json], and has the key [authorization] exactly when
    [plotly_proxy_authorization] is true, its value then being
    [basic_auth] of the proxy credentials; [get_headers] returns no
    mapping only when that [basic_auth] raises. *)
Theorem get_headers_mapping (credentials : Credentials) (config : Config) :
  match outcome (get_headers credentials config) with
  | Return headers =>
      headers !! Py.s "content-type"
      = Some (Py.Str (Py.s "application/json")) /\
      (is_Some (headers !! Py.s "authorization")
       <-> plotly_proxy_authorization config = true) /\
      (plotly_proxy_authorization config = true ->
       exists proxy_auth,
         basic_auth (proxy_username credentials)
                    (proxy_password credentials) = Return proxy_auth /\
         headers !! Py.s "authorization" = Some (Py.Bytes proxy_auth))
  | Raise e =>
      basic_auth (proxy_username credentials) (proxy_password credentials)
      = Raise e
  end.
Proof.
  unfold outcome, run. rewrite get_headers_run.
  destruct (basic_auth _ _) as [proxy_auth|e]; cbn [fst]; [|reflexivity].
  destruct (plotly_proxy_authorization config).
  - split; [|split].
    + rewrite lookup_insert_ne by str_neq. apply lookup_singleton_eq.
    + rewrite lookup_insert_eq. split; [reflexivity | eauto].
    + intros _. exists proxy_auth. split; [reflexivity|].
      apply lookup_insert_eq.
  - split; [|split].
    + apply lookup_singleton_eq.
    + rewrite lookup_singleton_ne by str_neq.
      split; [intros [? ?]; discriminate | discriminate].
    + discriminate.
Qed.


(** C10: [get_headers] always fetches the credentials and encodes the
    proxy pair (it raises whatever [basic_auth] raises, whatever the
    flag); the mapping it returns has the keys [content-type] alone or
    [content-type] and [authorization], never [plotly-authorization], and
    with the flag off no entry holds the encoded value. *)
Theorem get_headers_keys (credentials : Credentials) (config : Config) :
  (exists rest,
     calls (get_headers credentials config) = GetCredentials :: rest) /\
  match outcome (get_headers credentials config) with
  | Return headers =>
      (dom headers = {[ Py.s "content-type" ]} \/
       dom headers = {[ Py.s "content-type"; Py.s "authorization" ]}) /\
      headers !! Py.s "plotly-authorization" = None /\
      exists proxy_auth,
        basic_auth (proxy_username credentials)
                   (proxy_password credentials) = Return proxy_auth /\
        (plotly_proxy_authorization config = false ->
         forall key, headers !! key <> Some (Py.Bytes proxy_auth))
  | Raise e =>
      basic_auth (proxy_username credentials) (proxy_password credentials)
      = Raise e
  end.
Proof.
  unfold calls, outcome, run. rewrite get_headers_run.
  destruct (basic_auth _ _) as [proxy_auth|e]; cbn [fst snd app];
    [|split; [eauto | reflexivity]].
  split; [eauto|].
  destruct (plotly_proxy_authorization config).
  - split; [|split].
    + right. rewrite dom_insert_L, dom_singleton_L. set_solver.
    + rewrite lookup_insert_ne by str_neq.
      apply lookup_singleton_ne. str_neq.
    + exists proxy_auth. split; [reflexivity | discriminate].
  - split; [|split].
    + left. apply dom_singleton_L.
    + apply lookup_singleton_ne. str_neq.
    + exists proxy_auth. split; [reflexivity|].
      intros _ key Hkey.
      apply lookup_singleton_Some in Hkey as [_ Hvalue].
      discriminate Hvalue.
Qed.

(** ** request *)

Section Request.

Variable credentials : Credentials.
Variable config : Config.
Variable transport :
  Py.str -> Py.str -> gmap (list N) Py.val -> transport_outcome.
Variables method url : Py.str.
Variable kwargs : gmap (list N) Py.val.

Lemma json_given_spec :
  json_given kwargs = true <->
  exists v, kwargs !! Py.s "json" = Some v /\ v <> Py.None_.
Proof.
  unfold json_given, Py.get.
  destruct (kwargs !! Py.s "json") as [v|].
  - split.
    + intros H. exists v. split; [reflexivity|].
      intros ->. discriminate H.
    + intros [v' [[= <-] Hv]]. destruct v; try reflexivity.
      contradiction.
  - split; [discriminate | intros [v [[=] _]]].
Qed.

(** With a JSON body, [request] raises at once. *)
Lemma request_run_json :
  json_given kwargs = true ->
  run (request credentials config transport method url kwargs)
  = (Raise (PlotlyError (Py.s "V1 API does not handle arbitrary json.")),
     []).
Proof. intros H. unfold run, request. rewrite H. reflexivity. Qed.

(** Without one, and when [get_headers] raises, so does [request]. *)
Lemma request_run_no_headers (e : exn) :
  json_given kwargs = false ->
  outcome (get_headers credentials config) = Raise e ->
  run (request credentials config transport method url kwargs)
  = (Raise e, [GetCredentials]) /\ e = UnicodeEncodeError.
Proof.
  intros Hjson. unfold outcome, run, request. rewrite Hjson.
  unfold bind at 1. rewrite get_headers_run, basic_auth_unfold.
  destruct (latin1_encode _); cbn [fst]; [discriminate|].
  intros [= <-]. split; reflexivity.
Qed.

(** When the headers are assembled but [dict] raises on the [headers]
    entry of [kwargs], so does [request]. *)
Lemma request_run_dict_raises (assembled : gmap (list N) Py.val) (e : exn) :
  json_given kwargs = false ->
  outcome (get_headers credentials config) = Return assembled ->
  dict_update (Py.get kwargs (Py.s "headers") (Py.Dict ∅)) assembled
  = Raise e ->
  run (request credentials config transport method url kwargs)
  = (Raise e, [GetCredentials; GetConfig]).
Proof.
  intros Hjson. unfold outcome, run, request. rewrite Hjson.
  unfold bind at 1. rewrite get_headers_run.
  destruct (basic_auth _ _); cbn [fst]; [|discriminate].
  intros [= <-] Hdict. unfold bind at 1, lift. rewrite Hdict.
  reflexivity.
Qed.

(** Otherwise the transport is called once, with the merged headers, and
    its outcome decides the result. *)
Lemma request_run_merged (assembled merged : gmap (list N) Py.val) :
  json_given kwargs = false ->
  outcome (get_headers credentials config) = Return assembled ->
  dict_update (Py.get kwargs (Py.s "headers") (Py.Dict ∅)) assembled
  = Return merged ->
  let sent := <[ Py.s "headers" := Py.Dict merged ]> kwargs in
  run (request credentials config transport method url kwargs)
  = (settled (transport method url sent),
     [GetCredentials; GetConfig; TransportCall method url sent]).
Proof.
  intros Hjson. unfold outcome, run, request. rewrite Hjson.
  unfold bind at 1. rewrite get_headers_run.
  destruct (basic_auth _ _); cbn [fst]; [|discriminate].
  intros [= <-] Hdict. unfold bind at 1, lift. rewrite Hdict.
  cbv [bind requests_request emit ret raise response_truthy settled].
  cbn [app].
  destruct (transport _ _ _) as [response|e|name]; [|reflexivity..].
  destruct (validate_response response); reflexivity.
Qed.

Lemma request_run_sent (assembled caller : gmap (list N) Py.val) :
  json_given kwargs = false ->
  outcome (get_headers credentials config) = Return assembled ->
  Py.get kwargs (Py.s "headers") (Py.Dict ∅) = Py.Dict caller ->
  let sent := <[ Py.s "headers" := Py.Dict (assembled ∪ caller) ]> kwargs in
  run (request credentials config transport method url kwargs)
  = (settled (transport method url sent),
     [GetCredentials; GetConfig; TransportCall method url sent]).
Proof.
  intros Hjson Hheaders Hcaller.
  apply (request_run_merged assembled (assembled ∪ caller));
    [exact Hjson | exact Hheaders |].
  rewrite Hcaller. reflexivity.
Qed.

End Request.

Lemma validate_response_raises (response : Response) (e : exn) :
  validate_response response = Raise e ->
  (exists message, e = PlotlyRequestError message
                         (Some (status_code response))
                         (Py.Bytes (content response))) \/
  (exists name, json response = JsonRaises name /\ e = OtherException name).
Proof.
  unfold validate_response.
  destruct (ok response); [discriminate|].
  destruct (json response); intros [= <-]; eauto.
Qed.

Lemma validate_response_ok (response : Response) :
  validate_response response = Return tt <-> ok response = true.
Proof.
  unfold validate_response. destruct (ok response).
  - split; reflexivity.
  - destruct (json response); split; discriminate.
Qed.

Lemma pair_of_raises (item : Py.val) (e : exn) :
  pair_of item = Raise e -> e = TypeError \/ e = ValueError.
Proof.
  unfold pair_of. intros H.
  repeat match type of H with
         | match ?x with _ => _ end = _ => destruct x
         end;
    first [discriminate H | injection H as <-; auto].
Qed.

Lemma update_from_pairs_raises (items : list Py.val)
    (d : gmap (list N) Py.val) (e : exn) :
  update_from_pairs items d = Raise e -> e = TypeError \/ e = ValueError.
Proof.
  revert d. induction items as [|item rest IH]; intros d; cbn.
  - discriminate.
  - destruct (pair_of item) as [[key v]|e'] eqn:Hitem.
    + apply IH.
    + intros [= <-]. apply (pair_of_raises item). exact Hitem.
Qed.

Lemma dict_update_raises (x : Py.val) (assembled : gmap (list N) Py.val)
    (e : exn) :
  dict_update x assembled = Raise e -> e = TypeError \/ e = ValueError.
Proof.
  destruct x as [| | | |x|x|items|caller]; cbn;
    try (intros [= <-]; auto; fail).
  - destruct x; intros [= <-]. auto.
  - destruct x; intros [= <-]. auto.
  - destruct (update_from_pairs items ∅) as [caller|e'] eqn:Hitems;
      intros [= <-]. apply (update_from_pairs_raises items ∅). exact Hitems.
Qed.

(** The four ways a call of [request] can go. *)
Lemma request_cases (credentials : Credentials) (config : Config)
    (transport : Py.str -> Py.str -> gmap (list N) Py.val
                 -> transport_outcome)
    (method url : Py.str) (kwargs : gmap (list N) Py.val) :
  let r := run (request credentials config transport method url kwargs) in
  (json_given kwargs = true /\
   r = (Raise (PlotlyError (Py.s "V1 API does not handle arbitrary json.")),
        [])) \/
  (json_given kwargs = false /\
   r = (Raise UnicodeEncodeError, [GetCredentials])) \/
  (json_given kwargs = false /\
   exists e,
     (e = TypeError \/ e = ValueError) /\
     r = (Raise e, [GetCredentials; GetConfig])) \/
  (json_given kwargs = false /\
   exists assembled merged,
     outcome (get_headers credentials config) = Return assembled /\
     dict_update (Py.get kwargs (Py.s "headers") (Py.Dict ∅)) assembled
     = Return merged /\
     let sent := <[ Py.s "headers" := Py.Dict merged ]> kwargs in
     r = (settled (transport method url sent),
          [GetCredentials; GetConfig; TransportCall method url sent])).
Proof.
  intros r. subst r.
  destruct (json_given kwargs) eqn:Hjson.
  { left. split; [reflexivity|]. apply request_run_json. exact Hjson. }
  right.
  destruct (outcome (get_headers credentials config))
    as [assembled|e] eqn:Hheaders.
  2: { left. split; [reflexivity|].
       destruct (request_run_no_headers credentials config transport
                   method url kwargs e Hjson Hheaders) as [Hrun ->].
       exact Hrun. }
  right.
  destruct (dict_update (Py.get kwargs (Py.s "headers") (Py.Dict ∅))
              assembled) as [merged|e] eqn:Hdict.
  - right. split; [reflexivity|]. exists assembled, merged.
    split; [reflexivity|]. split; [exact Hdict|].
    apply (request_run_merged _ _ _ _ _ _ assembled merged); assumption.
  - left. split; [reflexivity|]. exists e.
    split; [apply (dict_update_raises _ _ _ Hdict)|].
    apply (request_run_dict_raises _ _ _ _ _ _ assembled e); assumption.
Qed.

Lemma settled_not_usage_error (attempt : transport_outcome) :
  ~ is_usage_error (settled attempt).
Proof.
  intros [message H]. destruct attempt as [response|e|name]; cbn in H;
    try discriminate H.
  destruct (validate_response response) as [|e] eqn:Hvalid;
    [discriminate H|].
  apply validate_response_raises in Hvalid as [[m ->]|[name [_ ->]]];
    discriminate H.
Qed.

(** C3 (as amended): [request] raises the usage error exactly when
    [kwargs] has an entry [json] that is not [None] (an empty body such as
    [{}] included), and then no collaborator has been called; otherwise,
    once the headers are assembled and merged, the transport is called
    exactly once. *)
Theorem request_usage_error (credentials : Credentials) (config : Config)
    (transport : Py.str -> Py.str -> gmap (list N) Py.val
                 -> transport_outcome)
    (method url : Py.str) (kwargs : gmap (list N) Py.val) :
  let call := request credentials config transport method url kwargs in
  let json_not_None :=
    exists v, kwargs !! Py.s "json" = Some v /\ v <> Py.None_ in
  (is_usage_error (outcome call) <-> json_not_None) /\
  (json_not_None -> calls call = []) /\
  (~ json_not_None ->
   forall assembled caller,
     outcome (get_headers credentials config) = Return assembled ->
     Py.get kwargs (Py.s "headers") (Py.Dict ∅) = Py.Dict caller ->
     transport_calls (calls call)
     = [TransportCall method url
          (<[ Py.s "headers" := Py.Dict (assembled ∪ caller) ]> kwargs)]).
Proof.
  intros call json_not_None. subst call json_not_None.
  rewrite <- json_given_spec. unfold outcome, calls.
  split; [|split].
  - destruct (request_cases credentials config transport method url kwargs)
      as [[Hjson ->] | [[Hjson ->] | [[Hjson [e [He ->]]] | [Hjson H]]]];
      cbn [fst].
    + split; [intros _; exact Hjson | intros _; eexists; reflexivity].
    + rewrite Hjson. split; [intros [? [=]] | discriminate].
    + rewrite Hjson. split; [|discriminate].
      intros [m [= ->]]. destruct He; discriminate.
    + destruct H as [assembled [caller [_ [_ ->]]]]. cbn [fst].
      rewrite Hjson. split; [|discriminate].
      intros H. destruct (settled_not_usage_error _ H).
  - intros Hjson. rewrite request_run_json by exact Hjson. reflexivity.
  - intros Hjson assembled caller Hheaders Hcaller.
    apply not_true_is_false in Hjson.
    rewrite (request_run_sent _ _ _ _ _ _ assembled caller
               Hjson Hheaders Hcaller).
    reflexivity.
Qed.

Lemma demo_headers_off :
  outcome (get_headers Demo.creds Demo.proxy_off)
  = Return {[ Py.s "content-type" := Py.Str (Py.s "application/json") ]}.
Proof. unfold outcome, run. rewrite get_headers_run. reflexivity. Qed.

Lemma demo_headers_on :
  outcome (get_headers Demo.creds Demo.proxy_on)
  = Return (<[ Py.s "authorization"
               := Py.Bytes (Py.b "Basic cHJveHk6cHc=") ]>
              {[ Py.s "content-type"
                 := Py.Str (Py.s "application/json") ]}).
Proof. unfold outcome, run. rewrite get_headers_run. reflexivity. Qed.

Lemma get_no_headers :
  Py.get (∅ : gmap (list N) Py.val) (Py.s "headers") (Py.Dict ∅)
  = Py.Dict ∅.
Proof. unfold Py.get. rewrite lookup_empty. reflexivity. Qed.

Lemma json_given_empty : json_given ∅ = false.
Proof. unfold json_given, Py.get. rewrite lookup_empty. reflexivity. Qed.

Lemma request_usage_error_witness :
  let call := request Demo.creds Demo.proxy_off (Demo.answering Demo.success)
                (Py.s "post") Demo.url {[ Py.s "json" := Py.Int 1 ]} in
  is_usage_error (outcome call) /\ calls call = [] /\
  transport_calls
    (calls (request Demo.creds Demo.proxy_off (Demo.answering Demo.success)
              (Py.s "get") Demo.url ∅))
  = [TransportCall (Py.s "get") Demo.url
       (<[ Py.s "headers" :=
             Py.Dict ({[ Py.s "content-type"
                         := Py.Str (Py.s "application/json") ]} ∪ ∅) ]> ∅)].
Proof.
  intros call.
  assert (exists v, ({[ Py.s "json" := Py.Int 1 ]} : gmap (list N) Py.val)
                    !! Py.s "json" = Some v /\ v <> Py.None_) as Hjson.
  { exists (Py.Int 1). split; [apply lookup_singleton_eq | discriminate]. }
  assert (~ exists v, (∅ : gmap (list N) Py.val) !! Py.s "json" = Some v
                      /\ v <> Py.None_) as Hnone.
  { intros [v [Hv _]]. rewrite lookup_empty in Hv. discriminate Hv. }
  destruct (request_usage_error Demo.creds Demo.proxy_off
              (Demo.answering Demo.success) (Py.s "post") Demo.url
              {[ Py.s "json" := Py.Int 1 ]})
    as [Hraise [Hcalls _]].
  destruct (request_usage_error Demo.creds Demo.proxy_off
              (Demo.answering Demo.success) (Py.s "get") Demo.url ∅)
    as [_ [_ Hsent]].
  split; [apply Hraise; exact Hjson|].
  split; [apply Hcalls; exact Hjson|].
  apply (Hsent Hnone _ _ demo_headers_off get_no_headers).
Defined.

(** C3 (as stated) fails: with the empty body [json={}] the options hold
    no populated JSON body, yet [request] raises the usage error. *)
Lemma request_usage_error_empty_json :
  ~ (is_usage_error
       (outcome (request Demo.creds Demo.proxy_off
                   (Demo.answering Demo.success) (Py.s "post") Demo.url
                   {[ Py.s "json" := Py.Dict ∅ ]}))
     <-> json_body_populated {[ Py.s "json" := Py.Dict ∅ ]} = true).
Proof.
  intros [Hraise _].
  assert (json_body_populated {[ Py.s "json" := Py.Dict ∅ ]} = true) as H.
  { apply Hraise. eexists. vm_compute. reflexivity. }
  vm_compute in H. discriminate H.
Qed.

(** X11: what [request] raises when the transport raises a
    [RequestException]: the message is the exception's, or [No message];
    status code and content are the attached response's when there is one
    and it is truthy, [None] and [No content] otherwise; the transport has
    been called once. *)
Lemma request_transport_failure (credentials : Credentials)
    (config : Config)
    (transport : Py.str -> Py.str -> gmap (list N) Py.val
                 -> transport_outcome)
    (method url : Py.str) (kwargs assembled caller : gmap (list N) Py.val)
    (e : RequestException) :
  json_given kwargs = false ->
  outcome (get_headers credentials config) = Return assembled ->
  Py.get kwargs (Py.s "headers") (Py.Dict ∅) = Py.Dict caller ->
  transport method url
    (<[ Py.s "headers" := Py.Dict (assembled ∪ caller) ]> kwargs) = Fails e ->
  let call := request credentials config transport method url kwargs in
  exists status content_,
    outcome call
    = Raise (PlotlyRequestError
               (match exc_message e with
                | Some message => message
                | None => Py.Str (Py.s "No message")
                end) status content_) /\
    length (transport_calls (calls call)) = 1%nat /\
    match exc_response e with
    | None => status = None /\ content_ = Py.Str (Py.s "No content")
    | Some r =>
        if ok r
        then status = Some (status_code r) /\ content_ = Py.Bytes (content r)
        else status = None /\ content_ = Py.Str (Py.s "No content")
    end.
Proof.
  intros Hjson Hheaders Hcaller Hfails call. subst call.
  unfold outcome, calls.
  rewrite (request_run_sent _ _ _ _ _ _ assembled caller
             Hjson Hheaders Hcaller).
  rewrite Hfails. cbn [fst snd settled].
  eexists _, _. split; [reflexivity|]. split; [reflexivity|].
  destruct (exc_response e) as [r|]; [destruct (ok r)|]; split; reflexivity.
Qed.

(** C2, at a transport that raises an [HTTPError] carrying the 502
    response [Demo.bad_gateway]: the error [request] raises has status
    code [None] and content [No content], not those of the response. *)
Theorem request_drops_failed_response :
  exc_response Demo.http_error = Some Demo.bad_gateway /\
  status_code Demo.bad_gateway = 502 /\
  content Demo.bad_gateway = Py.b "Bad Gateway" /\
  outcome (request Demo.creds Demo.proxy_off (Demo.failing Demo.http_error)
             (Py.s "get") Demo.url ∅)
  = Raise (PlotlyRequestError (Py.Str (Py.s "No message")) None
                              (Py.Str (Py.s "No content"))).
Proof.
  repeat (split; [reflexivity|]).
  unfold outcome.
  rewrite (request_run_sent _ _ _ _ _ _ _ _
             json_given_empty demo_headers_off get_no_headers).
  reflexivity.
Qed.

(** A transport exception that carries no response is translated to
    status code [None] and content [No content]. *)
Example request_connection_error :
  run (request Demo.creds Demo.proxy_off
         (Demo.failing Demo.connection_error) (Py.s "get") Demo.url ∅)
  = (Raise (PlotlyRequestError (Py.Str (Py.s "No message")) None
                               (Py.Str (Py.s "No content"))),
     [GetCredentials; GetConfig;
      TransportCall (Py.s "get") Demo.url
        (<[ Py.s "headers" :=
              Py.Dict ({[ Py.s "content-type"
                          := Py.Str (Py.s "application/json") ]} ∪ ∅) ]> ∅)]).
Proof.
  rewrite (request_run_sent _ _ _ _ _ _ _ _
             json_given_empty demo_headers_off get_no_headers).
  reflexivity.
Qed.

(** A GET answered with status 404 and the body [{"error":"not found"}]
    raises the error with that message, status and raw body. *)
Example request_not_found :
  outcome (request Demo.creds Demo.proxy_off (Demo.answering Demo.not_found)
             (Py.s "get") Demo.url ∅)
  = Raise (PlotlyRequestError (Py.Str (Py.s "not found")) (Some 404)
                              (Py.Bytes Demo.not_found_body)).
Proof.
  unfold outcome.
  rewrite (request_run_sent _ _ _ _ _ _ _ _
             json_given_empty demo_headers_off get_no_headers).
  vm_compute. reflexivity.
Qed.

(** C5: a response with [ok] true passes [validate_response], whatever
    its body, and [request] returns the very response the transport
    returned; conversely whatever [request] returns is a response the
    transport returned. *)
Theorem ok_response_returned (credentials : Credentials) (config : Config)
    (transport : Py.str -> Py.str -> gmap (list N) Py.val
                 -> transport_outcome)
    (method url : Py.str) (kwargs assembled caller : gmap (list N) Py.val)
    (response : Response) :
  ok response = true ->
  validate_response response = Return tt /\
  (json_given kwargs = false ->
   outcome (get_headers credentials config) = Return assembled ->
   Py.get kwargs (Py.s "headers") (Py.Dict ∅) = Py.Dict caller ->
   transport method url
     (<[ Py.s "headers" := Py.Dict (assembled ∪ caller) ]> kwargs)
   = Responds response ->
   outcome (request credentials config transport method url kwargs)
   = Return response) /\
  (forall returned,
     outcome (request credentials config transport method url kwargs)
     = Return returned ->
     exists sent, transport method url sent = Responds returned).
Proof.
  intros Hok. apply validate_response_ok in Hok as Hvalid.
  split; [exact Hvalid|]. split.
  - intros Hjson Hheaders Hcaller Hresponds. unfold outcome.
    rewrite (request_run_sent _ _ _ _ _ _ assembled caller
               Hjson Hheaders Hcaller).
    rewrite Hresponds. cbn [fst settled]. rewrite Hvalid. reflexivity.
  - intros returned. unfold outcome.
    destruct (request_cases credentials config transport method url kwargs)
      as [[_ ->] | [[_ ->] | [[_ [e [_ ->]]] | [_ H]]]]; cbn [fst];
      try discriminate.
    destruct H as [assembled' [caller' [_ [_ ->]]]]. cbn [fst].
    destruct (transport method url _) as [r|e|name] eqn:Hr; cbn [settled];
      try discriminate.
    destruct (validate_response r); [|discriminate].
    intros [= <-]. eauto.
Qed.

Lemma ok_response_returned_witness :
  validate_response Demo.success = Return tt /\
  outcome (request Demo.creds Demo.proxy_off (Demo.answering Demo.success)
             (Py.s "get") Demo.url ∅)
  = Return Demo.success.
Proof.
  destruct (ok_response_returned Demo.creds Demo.proxy_off
              (Demo.answering Demo.success) (Py.s "get") Demo.url ∅
              {[ Py.s "content-type" := Py.Str (Py.s "application/json") ]}
              ∅ Demo.success eq_refl) as [Hvalid [Hreturn _]].
  split; [exact Hvalid|].
  apply Hreturn.
  - exact json_given_empty.
  - exact demo_headers_off.
  - exact get_no_headers.
  - reflexivity.
Defined.

(** C8: the transport is called with the options of the caller, in which
    [headers] is the caller's mapping updated with the assembled headers:
    an assembled entry is there whatever the caller gave under its key,
    every other key holds what the caller gave, and every option other
    than [headers] is passed as it came. *)
Theorem request_merges_headers (credentials : Credentials) (config : Config)
    (transport : Py.str -> Py.str -> gmap (list N) Py.val
                 -> transport_outcome)
    (method url : Py.str) (kwargs assembled caller : gmap (list N) Py.val) :
  json_given kwargs = false ->
  outcome (get_headers credentials config) = Return assembled ->
  Py.get kwargs (Py.s "headers") (Py.Dict ∅) = Py.Dict caller ->
  exists sent merged,
    transport_calls
      (calls (request credentials config transport method url kwargs))
    = [TransportCall method url sent] /\
    sent !! Py.s "headers" = Some (Py.Dict merged) /\
    (forall key v, assembled !! key = Some v -> merged !! key = Some v) /\
    (forall key, assembled !! key = None -> merged !! key = caller !! key) /\
    (forall key, key <> Py.s "headers" -> sent !! key = kwargs !! key).
Proof.
  intros Hjson Hheaders Hcaller.
  exists (<[ Py.s "headers" := Py.Dict (assembled ∪ caller) ]> kwargs),
         (assembled ∪ caller).
  unfold calls.
  rewrite (request_run_sent _ _ _ _ _ _ assembled caller
             Hjson Hheaders Hcaller).
  split; [reflexivity|]. split; [apply lookup_insert_eq|].
  split; [|split].
  - intros key v Hkey. apply lookup_union_Some_l. exact Hkey.
  - intros key Hkey. apply lookup_union_r. exact Hkey.
  - intros key Hkey. apply lookup_insert_ne. congruence.
Qed.

Lemma request_merges_headers_witness :
  let caller : gmap (list N) Py.val :=
    <[ Py.s "x-trace" := Py.Str (Py.s "1") ]>
      {[ Py.s "content-type" := Py.Str (Py.s "text/plain") ]} in
  let kwargs : gmap (list N) Py.val :=
    <[ Py.s "timeout" := Py.Int 5 ]>
      {[ Py.s "headers" := Py.Dict caller ]} in
  let assembled : gmap (list N) Py.val :=
    {[ Py.s "content-type" := Py.Str (Py.s "application/json") ]} in
  exists sent merged,
    transport_calls
      (calls (request Demo.creds Demo.proxy_off
                (Demo.answering Demo.success) (Py.s "get") Demo.url kwargs))
    = [TransportCall (Py.s "get") Demo.url sent] /\
    sent !! Py.s "headers" = Some (Py.Dict merged) /\
    (forall key v, assembled !! key = Some v -> merged !! key = Some v) /\
    (forall key, assembled !! key = None -> merged !! key = caller !! key) /\
    (forall key, key <> Py.s "headers" -> sent !! key = kwargs !! key).
Proof.
  intros caller kwargs assembled.
  apply (request_merges_headers Demo.creds Demo.proxy_off
           (Demo.answering Demo.success) (Py.s "get") Demo.url
           kwargs assembled caller).
  - vm_compute. reflexivity.
  - exact demo_headers_off.
  - vm_compute. reflexivity.
Defined.

(** The merge on the caller's headers of the witness above: the caller's
    [content-type] is overwritten, the caller's [x-trace] is kept. *)
Example merged_headers_lookup :
  let caller : gmap (list N) Py.val :=
    <[ Py.s "x-trace" := Py.Str (Py.s "1") ]>
      {[ Py.s "content-type" := Py.Str (Py.s "text/plain") ]} in
  dict_update (Py.Dict caller)
    {[ Py.s "content-type" := Py.Str (Py.s "application/json") ]}
  = Return (<[ Py.s "x-trace" := Py.Str (Py.s "1") ]>
              {[ Py.s "content-type"
                 := Py.Str (Py.s "application/json") ]}).
Proof. vm_compute. reflexivity. Qed.

(** * Further properties of the code *)

(** ** Base64 and Latin-1 *)

Section Base64Facts.

Local Open Scope N_scope.

Lemma lor_shiftl_add (a b n : N) :
  b < 2 ^ n -> N.lor (N.shiftl a n) b = a * 2 ^ n + b.
Proof.
  intros Hb.
  assert (N.land (N.shiftl a n) b = 0) as Hdisjoint.
  { apply N.bits_inj. intros i. rewrite N.land_spec, N.bits_0.
    destruct (N.lt_ge_cases i n) as [Hi|Hi].
    - rewrite N.shiftl_spec_low by exact Hi. reflexivity.
    - rewrite <- (N.mod_small b (2 ^ n)) by exact Hb.
      rewrite N.mod_pow2_bits_high by exact Hi. apply andb_false_r. }
  rewrite <- N.lxor_lor by exact Hdisjoint.
  rewrite <- N.add_nocarry_lxor by exact Hdisjoint.
  rewrite N.shiftl_mul_pow2. reflexivity.
Qed.

Lemma group_sum (x y z : byte) :
  Base64.group x y z
  = Byte.to_N x * 65536 + Byte.to_N y * 256 + Byte.to_N z.
Proof.
  pose proof (Byte.to_N_bounded y). pose proof (Byte.to_N_bounded z).
  unfold Base64.group.
  rewrite (lor_shiftl_add (Byte.to_N y) (Byte.to_N z) 8)
    by (change (2 ^ 8) with 256; lia).
  rewrite lor_shiftl_add by (change (2 ^ 16) with 65536; change (2 ^ 8) with 256; lia).
  change (2 ^ 16) with 65536; change (2 ^ 8) with 256. lia.
Qed.

Lemma alphabet_length : length Base64.alphabet = 64%nat.
Proof. reflexivity. Qed.

Lemma alphabet_NoDup : List.NoDup Base64.alphabet.
Proof.
  apply NoDup_ListNoDup.
  apply (bool_decide_unpack _). vm_compute. exact I.
Qed.

Lemma pad_not_in_alphabet : ~ In Base64.pad Base64.alphabet.
Proof. vm_compute. intuition discriminate. Qed.

Lemma sextet_index (n : N) :
  (N.to_nat (N.land n 63) < 64)%nat.
Proof.
  change 63 with (N.ones 6). rewrite N.land_ones.
  pose proof (N.mod_lt n (2 ^ 6)). change (2 ^ 6) with 64 in *. lia.
Qed.

Lemma sextet_in_alphabet (n : N) : In (Base64.sextet n) Base64.alphabet.
Proof.
  unfold Base64.sextet. apply nth_In. rewrite alphabet_length.
  apply sextet_index.
Qed.

Lemma sextet_not_pad (n : N) : Base64.sextet n <> Base64.pad.
Proof.
  intros H. apply pad_not_in_alphabet. rewrite <- H.
  apply sextet_in_alphabet.
Qed.

Lemma sextet_inj (a b : N) :
  Base64.sextet a = Base64.sextet b -> a mod 64 = b mod 64.
Proof.
  unfold Base64.sextet. intros H.
  apply (proj1 (List.NoDup_nth Base64.alphabet Base64.pad) alphabet_NoDup) in H;
    try (rewrite alphabet_length; apply sextet_index).
  apply N2Nat.inj in H. change 63 with (N.ones 6) in H.
  rewrite !N.land_ones in H. exact H.
Qed.

Lemma to_N_inj (x y : byte) : Byte.to_N x = Byte.to_N y -> x = y.
Proof.
  intros H. pose proof (Byte.of_to_N x) as Hx.
  rewrite H, Byte.of_to_N in Hx. congruence.
Qed.

Ltac div_lia := zify; Z.to_euclidean_division_equations; lia.

Lemma sextet1 (X Y Z : N) : X < 256 -> Y < 256 -> Z < 256 ->
  ((X * 65536 + Y * 256 + Z) / 262144) mod 64 = X / 4.
Proof. intros. div_lia. Qed.

Lemma sextet2 (X Y Z : N) : X < 256 -> Y < 256 -> Z < 256 ->
  ((X * 65536 + Y * 256 + Z) / 4096) mod 64 = (X mod 4) * 16 + Y / 16.
Proof. intros. div_lia. Qed.

Lemma sextet3 (X Y Z : N) : X < 256 -> Y < 256 -> Z < 256 ->
  ((X * 65536 + Y * 256 + Z) / 64) mod 64 = (Y mod 16) * 4 + Z / 64.
Proof. intros. div_lia. Qed.

Lemma sextet4 (X Y Z : N) : X < 256 -> Y < 256 -> Z < 256 ->
  (X * 65536 + Y * 256 + Z) mod 64 = Z mod 64.
Proof. intros. div_lia. Qed.

Lemma quad_inj (X Y Z X' Y' Z' : N) :
  X < 256 -> Y < 256 -> Z < 256 -> X' < 256 -> Y' < 256 -> Z' < 256 ->
  X / 4 = X' / 4 ->
  (X mod 4) * 16 + Y / 16 = (X' mod 4) * 16 + Y' / 16 ->
  (Y mod 16) * 4 + Z / 64 = (Y' mod 16) * 4 + Z' / 64 ->
  Z mod 64 = Z' mod 64 ->
  X = X' /\ Y = Y' /\ Z = Z'.
Proof.
  intros. divmod X 4. divmod X' 4. divmod Y 16. divmod Y' 16.
  divmod Z 64. divmod Z' 64. lia.
Qed.

Lemma sextet_values (x y z : byte) :
  let g := Base64.group x y z in
  N.shiftr g 18 mod 64 = Byte.to_N x / 4 /\
  N.shiftr g 12 mod 64 = (Byte.to_N x mod 4) * 16 + Byte.to_N y / 16 /\
  N.shiftr g 6 mod 64 = (Byte.to_N y mod 16) * 4 + Byte.to_N z / 64 /\
  g mod 64 = Byte.to_N z mod 64.
Proof.
  intros g. subst g.
  pose proof (Byte.to_N_bounded x). pose proof (Byte.to_N_bounded y).
  pose proof (Byte.to_N_bounded z).
  rewrite !N.shiftr_div_pow2, group_sum.
  change (2 ^ 18) with 262144; change (2 ^ 12) with 4096;
    change (2 ^ 6) with 64.
  rewrite sextet1, sextet2, sextet3, sextet4 by lia. auto.
Qed.

Lemma group_inj (x y z x' y' z' : byte) :
  let g := Base64.group x y z in
  let g' := Base64.group x' y' z' in
  N.shiftr g 18 mod 64 = N.shiftr g' 18 mod 64 ->
  N.shiftr g 12 mod 64 = N.shiftr g' 12 mod 64 ->
  N.shiftr g 6 mod 64 = N.shiftr g' 6 mod 64 ->
  g mod 64 = g' mod 64 ->
  x = x' /\ y = y' /\ z = z'.
Proof.
  intros g g'. subst g g'.
  destruct (sextet_values x y z) as (-> & -> & -> & ->).
  destruct (sextet_values x' y' z') as (-> & -> & -> & ->).
  intros H1 H2 H3 H4.
  pose proof (Byte.to_N_bounded x). pose proof (Byte.to_N_bounded y).
  pose proof (Byte.to_N_bounded z). pose proof (Byte.to_N_bounded x').
  pose proof (Byte.to_N_bounded y'). pose proof (Byte.to_N_bounded z').
  destruct (quad_inj (Byte.to_N x) (Byte.to_N y) (Byte.to_N z)
              (Byte.to_N x') (Byte.to_N y') (Byte.to_N z'))
    as (Hx & Hy & Hz); try assumption; try lia.
  auto using to_N_inj.
Qed.

Lemma zero_tail_sextets (x y x' y' : byte) :
  Base64.group x y "000" mod 64 = Base64.group x' y' "000" mod 64 /\
  N.shiftr (Base64.group x "000" "000") 6 mod 64
  = N.shiftr (Base64.group x' "000" "000") 6 mod 64.
Proof.
  destruct (sextet_values x y "000") as (_ & _ & _ & ->).
  destruct (sextet_values x' y' "000") as (_ & _ & _ & ->).
  destruct (sextet_values x "000" "000") as (_ & _ & -> & _).
  destruct (sextet_values x' "000" "000") as (_ & _ & -> & _).
  split; reflexivity.
Qed.

Lemma list_ind3 {A} (P : list A -> Prop) :
  P [] -> (forall x, P [x]) -> (forall x y, P [x; y]) ->
  (forall x y z l, P l -> P (x :: y :: z :: l)) ->
  forall l, P l.
Proof.
  intros H0 H1 H2 H3. fix IH 1.
  intros [|x [|y [|z l]]]; [exact H0 | exact (H1 x) | exact (H2 x y) |].
  exact (H3 x y z l (IH l)).
Qed.

Ltac pad_clash :=
  match goal with
  | Hc : Base64.sextet _ = Base64.pad |- _ => destruct (sextet_not_pad _ Hc)
  | Hc : Base64.pad = Base64.sextet _ |- _ =>
      destruct (sextet_not_pad _ (eq_sym Hc))
  end.

Lemma b64encode_inj (a b : list byte) :
  Base64.b64encode a = Base64.b64encode b -> a = b.
Proof.
  revert b. induction a as [|x|x y|x y z a IH] using list_ind3;
    intros [|x' [|y' [|z' b]]] H; cbn [Base64.b64encode] in H;
    try discriminate H; try reflexivity;
    injection H; intros; try pad_clash.
  - repeat match goal with
           | Hs : Base64.sextet _ = Base64.sextet _ |- _ =>
               apply sextet_inj in Hs
           end.
    destruct (zero_tail_sextets x "000" x' "000") as [H4' H3'].
    destruct (group_inj x "000" "000" x' "000" "000") as (-> & _ & _);
      try assumption.
    reflexivity.
  - repeat match goal with
           | Hs : Base64.sextet _ = Base64.sextet _ |- _ =>
               apply sextet_inj in Hs
           end.
    destruct (zero_tail_sextets x y x' y') as [H4' _].
    destruct (group_inj x y "000" x' y' "000") as (-> & -> & _);
      try assumption.
    reflexivity.
  - repeat match goal with
           | Hs : Base64.sextet _ = Base64.sextet _ |- _ =>
               apply sextet_inj in Hs
           end.
    destruct (group_inj x y z x' y' z') as (-> & -> & ->); try assumption.
    f_equal. f_equal. f_equal. apply IH. assumption.
Qed.

End Base64Facts.

Lemma latin1_encode_Some (x : Py.str) (raw : Py.bytes) :
  latin1_encode x = Some raw -> List.map Byte.to_N raw = x.
Proof.
  revert raw. induction x as [|c rest IH]; intros raw; simpl.
  - intros [= <-]. reflexivity.
  - destruct (Byte.of_N c) as [o|] eqn:Ho; [|discriminate].
    destruct (latin1_encode rest) as [os|]; [|discriminate].
    intros [= <-]. simpl. rewrite (IH os eq_refl).
    rewrite (Byte.to_of_N c Ho). reflexivity.
Qed.

Lemma latin1_encode_None (x : Py.str) :
  latin1_encode x = None -> Exists (fun c => (255 < c)%N) x.
Proof.
  induction x as [|c rest IH]; simpl; [discriminate|].
  destruct (Byte.of_N c) as [o|] eqn:Ho.
  - destruct (latin1_encode rest); [discriminate|].
    intros _. apply Exists_cons_tl. apply IH. reflexivity.
  - intros _. apply Exists_cons_hd. apply Byte.of_N_None_iff. exact Ho.
Qed.

Lemma b64encode_length (bs : list byte) :
  length (Base64.b64encode bs) = (4 * ((length bs + 2) / 3))%nat.
Proof.
  induction bs as [|x|x y|x y z l IH] using list_ind3; try reflexivity.
  cbn [Base64.b64encode length]. rewrite IH.
  replace (S (S (S (length l))) + 2)%nat with (length l + 2 + 1 * 3)%nat
    by lia.
  rewrite Nat.div_add by lia. lia.
Qed.

Lemma b64encode_charset (bs : list byte) :
  Forall (fun c => In c Base64.alphabet \/ c = Base64.pad)
         (Base64.b64encode bs).
Proof.
  assert (forall n, In (Base64.sextet n) Base64.alphabet
                    \/ Base64.sextet n = Base64.pad) as Hsextet
    by (intros n; left; apply sextet_in_alphabet).
  assert (In Base64.pad Base64.alphabet \/ Base64.pad = Base64.pad) as Hpad
    by (right; reflexivity).
  induction bs as [|x|x y|x y z l IH] using list_ind3;
    cbn [Base64.b64encode].
  - constructor.
  - repeat (constructor; [first [apply Hsextet | exact Hpad]|]).
    constructor.
  - repeat (constructor; [first [apply Hsextet | exact Hpad]|]).
    constructor.
  - repeat (constructor; [apply Hsextet|]). exact IH.
Qed.

Lemma printable_alphabet (c : byte) :
  In c Base64.alphabet \/ c = Base64.pad \/ In c (Py.b "Basic ") ->
  (32 <= Byte.to_N c < 127)%N.
Proof.
  intros H.
  assert (In c (Base64.alphabet ++ Base64.pad :: Py.b "Basic ")) as Hin.
  { apply in_or_app. destruct H as [H|[->|H]]; [left; exact H|right..].
    - left. reflexivity.
    - right. exact H. }
  assert (forallb (fun c => (32 <=? Byte.to_N c)%N && (Byte.to_N c <? 127)%N)
            (Base64.alphabet ++ Base64.pad :: Py.b "Basic ") = true) as Hall
    by (vm_compute; reflexivity).
  rewrite forallb_forall in Hall. specialize (Hall c Hin).
  apply andb_true_iff in Hall as [Hlo Hhi].
  apply N.leb_le in Hlo. apply N.ltb_lt in Hhi. split; assumption.
Qed.

Lemma basic_auth_Return (u p : Py.str) (h : Py.bytes) :
  basic_auth u p = Return h ->
  exists raw,
    latin1_encode (format_auth u p) = Some raw /\
    h = Py.b "Basic " ++ Base64.b64encode raw.
Proof.
  rewrite basic_auth_unfold.
  destruct (latin1_encode (format_auth u p)) as [raw|]; [|discriminate].
  intros [= <-]. exists raw. split; reflexivity.
Qed.

Lemma length_latin1 (x : Py.str) (raw : Py.bytes) :
  latin1_encode x = Some raw -> length raw = length x.
Proof.
  intros H. apply latin1_encode_Some in H. rewrite <- H.
  rewrite length_map. reflexivity.
Qed.

Lemma split_at_separator (c : N) (u u' p p' : Py.str) :
  ~ In c u -> ~ In c u' ->
  u ++ c :: p = u' ++ c :: p' -> u = u' /\ p = p'.
Proof.
  revert u'. induction u as [|a u IH]; intros [|a' u'] Hu Hu'; simpl.
  - intros [= <-]. split; reflexivity.
  - intros [= <- _]. destruct Hu'. left. reflexivity.
  - intros [= -> _]. destruct Hu. left. reflexivity.
  - intros [= <- H]. destruct (IH u') as [-> ->]; auto.
    + intros Hin. apply Hu. right. exact Hin.
    + intros Hin. apply Hu'. right. exact Hin.
Qed.

(** ** basic_auth: failure, shape and collisions *)

Lemma latin1_encode_bounded (x : Py.str) (raw : Py.bytes) :
  latin1_encode x = Some raw -> Forall (fun c => (c < 256)%N) x.
Proof.
  intros H. apply latin1_encode_Some in H. subst x.
  apply Forall_forall. intros c Hc. apply list_elem_of_In, in_map_iff in Hc.
  destruct Hc as [o [<- _]]. pose proof (Byte.to_N_bounded o). lia.
Qed.

(** The two ways a call of [basic_auth] can go. *)
Lemma basic_auth_cases (u p : Py.str) :
  (Exists (fun c => (255 < c)%N) (u ++ p) /\
   basic_auth u p = Raise UnicodeEncodeError) \/
  (Forall (fun c => (c < 256)%N) (u ++ p) /\
   exists raw,
     latin1_encode (format_auth u p) = Some raw /\
     basic_auth u p = Return (Py.b "Basic " ++ Base64.b64encode raw)).
Proof.
  rewrite basic_auth_unfold.
  destruct (latin1_encode (format_auth u p)) as [raw|] eqn:Hraw.
  - right. split; [|exists raw; split; reflexivity].
    apply latin1_encode_bounded in Hraw. unfold format_auth in Hraw.
    apply Forall_app in Hraw as [Hu Hp].
    apply Forall_app in Hp as [_ Hp].
    apply Forall_app. split; assumption.
  - left. split; [|reflexivity].
    apply latin1_encode_None in Hraw. unfold format_auth in Hraw.
    apply Exists_app in Hraw as [Hraw|Hraw];
      [apply Exists_app; left; exact Hraw|].
    apply Exists_app in Hraw as [Hraw|Hraw];
      [|apply Exists_app; right; exact Hraw].
    exfalso. vm_compute in Hraw.
    inversion Hraw as [c l Hc|c l Hc]; subst;
      [vm_compute in Hc; discriminate Hc | inversion Hc].
Qed.

Lemma not_both_small_and_big (x : Py.str) :
  Forall (fun c => (c < 256)%N) x -> Exists (fun c => (255 < c)%N) x ->
  False.
Proof.
  intros Hsmall Hbig. apply Exists_exists in Hbig as [c [Hc Hbig]].
  rewrite Forall_forall in Hsmall. specialize (Hsmall c Hc). lia.
Qed.

(** X1: [basic_auth] raises exactly when the user name or the password
    holds a code point above 255, and what it raises is always
    [UnicodeEncodeError]. *)
Theorem basic_auth_raises_iff (u p : Py.str) :
  (basic_auth u p = Raise UnicodeEncodeError
   <-> Exists (fun c => (255 < c)%N) (u ++ p)) /\
  (forall e, basic_auth u p = Raise e -> e = UnicodeEncodeError).
Proof.
  destruct (basic_auth_cases u p) as [[Hbig ->]|[Hsmall [raw [_ ->]]]].
  - split; [split; [intros _; exact Hbig | reflexivity]|].
    intros e [= <-]. reflexivity.
  - split; [split; [discriminate|] | discriminate].
    intros Hbig. destruct (not_both_small_and_big _ Hsmall Hbig).
Qed.

(** X2: the value [basic_auth] returns is six bytes of prefix followed by
    four characters for every three characters, rounded up, of
    [username:password]. *)
Theorem basic_auth_length (u p : Py.str) (h : Py.bytes) :
  basic_auth u p = Return h ->
  length h = (6 + 4 * ((length u + length p + 3) / 3))%nat.
Proof.
  intros H. apply basic_auth_Return in H as [raw [Hraw ->]].
  rewrite length_app, b64encode_length, (length_latin1 _ _ Hraw).
  unfold format_auth. rewrite !length_app.
  change (length (Py.b "Basic ")) with 6%nat.
  change (length (Py.s ":")) with 1%nat.
  replace (length u + (1 + length p) + 2)%nat
    with (length u + length p + 3)%nat by lia.
  reflexivity.
Qed.

Lemma basic_auth_length_witness :
  length (Py.b "Basic YWxpY2U6c2VjcmV0")
  = (6 + 4 * ((length (Py.s "alice") + length (Py.s "secret") + 3) / 3))%nat.
Proof.
  apply (basic_auth_length (Py.s "alice") (Py.s "secret")).
  vm_compute. reflexivity.
Defined.

(** X3: the value [basic_auth] returns starts with [Basic ], continues
    with characters of the base64 alphabet and the padding [=] only, and
    so consists of printable ASCII characters throughout. *)
Theorem basic_auth_charset (u p : Py.str) (h : Py.bytes) :
  basic_auth u p = Return h ->
  (exists tail,
     h = Py.b "Basic " ++ tail /\
     Forall (fun c => In c Base64.alphabet \/ c = Base64.pad) tail) /\
  Forall (fun c => (32 <= Byte.to_N c < 127)%N) h.
Proof.
  intros H. apply basic_auth_Return in H as [raw [_ ->]].
  pose proof (b64encode_charset raw) as Htail.
  split; [exists (Base64.b64encode raw); split; [reflexivity | exact Htail]|].
  apply Forall_app. split.
  - apply Forall_forall. intros c Hc. apply printable_alphabet.
    right. right. apply list_elem_of_In. exact Hc.
  - eapply Forall_impl; [exact Htail|]. cbv beta. intros c [Hc| ->];
      apply printable_alphabet; [left; exact Hc | right; left; reflexivity].
Qed.

Lemma basic_auth_charset_witness :
  (exists tail,
     Py.b "Basic YWxpY2U6c2VjcmV0" = Py.b "Basic " ++ tail /\
     Forall (fun c => In c Base64.alphabet \/ c = Base64.pad) tail) /\
  Forall (fun c => (32 <= Byte.to_N c < 127)%N)
         (Py.b "Basic YWxpY2U6c2VjcmV0").
Proof.
  apply (basic_auth_charset (Py.s "alice") (Py.s "secret")).
  vm_compute. reflexivity.
Defined.

(** X4: two pairs of credentials get the same header value exactly when
    their strings [username:password] are the same; when neither user
    name holds a colon, only when user names and passwords are the
    same. *)
Theorem basic_auth_same_value (u p u' p' : Py.str) (h : Py.bytes) :
  basic_auth u p = Return h ->
  (basic_auth u' p' = Return h <-> format_auth u' p' = format_auth u p) /\
  (~ In 58%N u -> ~ In 58%N u' ->
   basic_auth u' p' = Return h -> u' = u /\ p' = p).
Proof.
  intros H.
  assert (basic_auth u' p' = Return h -> format_auth u' p' = format_auth u p)
    as Hinj.
  { intros H'.
    apply basic_auth_Return in H as [raw [Hraw ->]].
    apply basic_auth_Return in H' as [raw' [Hraw' Heq]].
    apply app_inv_head, b64encode_inj in Heq. subst raw'.
    apply latin1_encode_Some in Hraw, Hraw'. congruence. }
  split; [split; [exact Hinj|]|].
  - intros Hfmt. rewrite basic_auth_unfold, Hfmt, <- basic_auth_unfold.
    exact H.
  - intros Hu Hu' H'. apply Hinj in H'. unfold format_auth in H'.
    change (Py.s ":") with [58%N] in H'. cbn [app] in H'.
    apply (split_at_separator 58%N); assumption.
Qed.

Lemma basic_auth_same_value_witness :
  (basic_auth (Py.s "alice") (Py.s "secret")
   = Return (Py.b "Basic YWxpY2U6c2VjcmV0")
   <-> format_auth (Py.s "alice") (Py.s "secret")
       = format_auth (Py.s "alice") (Py.s "secret")) /\
  (~ In 58%N (Py.s "alice") -> ~ In 58%N (Py.s "alice") ->
   basic_auth (Py.s "alice") (Py.s "secret")
   = Return (Py.b "Basic YWxpY2U6c2VjcmV0") ->
   Py.s "alice" = Py.s "alice" /\ Py.s "secret" = Py.s "secret").
Proof.
  apply (basic_auth_same_value (Py.s "alice") (Py.s "secret")
           (Py.s "alice") (Py.s "secret")).
  vm_compute. reflexivity.
Defined.

(** ** validate_response: every outcome *)

Lemma content_or_No_Content_truthy (content : Py.bytes) :
  Py.truthy (content_or_No_Content content) = true.
Proof. destruct content; reflexivity. Qed.

Lemma validate_response_outcome_raise (response : Response) :
  ok response = false ->
  match json response with
  | JsonRaises name =>
      validate_response response = Raise (OtherException name)
  | _ =>
      exists message,
        validate_response response
        = Raise (PlotlyRequestError message (Some (status_code response))
                                    (Py.Bytes (content response))) /\
        Py.truthy message = true
  end.
Proof.
  intros Hok. unfold validate_response. rewrite Hok.
  destruct (json response) as [parsed| |name]; cbv beta iota zeta;
    [| |reflexivity]; eexists; (split; [reflexivity|]).
  - destruct (Py.truthy
                match parsed with
                | Py.Dict d =>
                    if Py.truthy (Py.get d (Py.s "error") Py.None_)
                    then Py.get d (Py.s "error") Py.None_
                    else Py.Str []
                | _ => Py.Str []
                end) eqn:Hm; cbn [negb].
    + exact Hm.
    + apply content_or_No_Content_truthy.
  - apply content_or_No_Content_truthy.
Qed.

(** X5: [validate_response] returns exactly on a response whose [ok] is
    true.  On any other, an exception of [response.json()] that is no
    [ValueError] goes through as it is; in every other case it raises a
    [PlotlyRequestError] that carries the status code and the raw body of
    the response and a message that is never empty or otherwise falsy. *)
Theorem validate_response_outcome (response : Response) :
  match validate_response response with
  | Return _ => ok response = true
  | Raise e =>
      ok response = false /\
      match json response with
      | JsonRaises name => e = OtherException name
      | _ =>
          exists message,
            e = PlotlyRequestError message (Some (status_code response))
                                   (Py.Bytes (content response)) /\
            Py.truthy message = true
      end
  end.
Proof.
  destruct (ok response) eqn:Hok.
  - apply validate_response_ok in Hok. rewrite Hok. reflexivity.
  - pose proof (validate_response_outcome_raise response Hok) as H.
    destruct (json response) as [parsed| |name];
      [destruct H as [message [-> Htruthy]]
      |destruct H as [message [-> Htruthy]]
      |rewrite H];
      (split; [reflexivity|]); try reflexivity;
      exists message; (split; [reflexivity | exact Htruthy]).
Qed.

(** ** get_headers: what it reads and when *)

(** X6: the headers do not depend on the user's own [username] and
    [password]: replacing them changes neither what [get_headers] returns
    or raises nor the calls it makes. *)
Theorem get_headers_ignores_user_credentials
    (credentials : Credentials) (config : Config) (u p : Py.str)
    (log : list event) :
  get_headers {| username := u; password := p;
                 proxy_username := proxy_username credentials;
                 proxy_password := proxy_password credentials |}
              config log
  = get_headers credentials config log.
Proof. rewrite !get_headers_run. reflexivity. Qed.

(** X7: when the proxy credentials hold a code point above 255,
    [get_headers] raises [UnicodeEncodeError] after fetching the
    credentials and without reading the config, whatever the flag; with
    credentials below 256 it reads the credentials, then the config, and
    returns. *)
Theorem get_headers_reads (credentials : Credentials) (config : Config) :
  let auth := proxy_username credentials ++ proxy_password credentials in
  (Exists (fun c => (255 < c)%N) auth ->
   run (get_headers credentials config)
   = (Raise UnicodeEncodeError, [GetCredentials])) /\
  (Forall (fun c => (c < 256)%N) auth ->
   exists headers,
     run (get_headers credentials config)
     = (Return headers, [GetCredentials; GetConfig])).
Proof.
  intros auth. subst auth. unfold run. rewrite get_headers_run.
  destruct (basic_auth_cases (proxy_username credentials)
              (proxy_password credentials))
    as [[Hbig ->]|[Hsmall [raw [_ ->]]]]; split.
  - reflexivity.
  - intros Hsmall. destruct (not_both_small_and_big _ Hsmall Hbig).
  - intros Hbig. destruct (not_both_small_and_big _ Hsmall Hbig).
  - intros _. eexists. reflexivity.
Qed.

Lemma get_headers_reads_witness :
  run (get_headers Demo.creds_euro Demo.proxy_off)
  = (Raise UnicodeEncodeError, [GetCredentials]) /\
  exists headers,
    run (get_headers Demo.creds Demo.proxy_off)
    = (Return headers, [GetCredentials; GetConfig]).
Proof.
  destruct (get_headers_reads Demo.creds_euro Demo.proxy_off) as [Hbig _].
  destruct (get_headers_reads Demo.creds Demo.proxy_off) as [_ Hsmall].
  split.
  - apply Hbig. apply Exists_app. right. apply Exists_cons_hd. reflexivity.
  - apply Hsmall. repeat constructor.
Defined.

(** ** request: every path *)

Lemma get_headers_outcome_small (credentials : Credentials)
    (config : Config) :
  Forall (fun c => (c < 256)%N)
         (proxy_username credentials ++ proxy_password credentials) ->
  exists proxy_auth,
    basic_auth (proxy_username credentials) (proxy_password credentials)
    = Return proxy_auth /\
    outcome (get_headers credentials config)
    = Return (if plotly_proxy_authorization config
              then <[ Py.s "authorization" := Py.Bytes proxy_auth ]>
                     {[ Py.s "content-type"
                        := Py.Str (Py.s "application/json") ]}
              else {[ Py.s "content-type"
                      := Py.Str (Py.s "application/json") ]}).
Proof.
  intros Hsmall. unfold outcome, run. rewrite get_headers_run.
  destruct (basic_auth_cases (proxy_username credentials)
              (proxy_password credentials))
    as [[Hbig _]|[_ [raw [_ ->]]]].
  - destruct (not_both_small_and_big _ Hsmall Hbig).
  - eexists. split; reflexivity.
Qed.

Lemma get_headers_outcome_big (credentials : Credentials)
    (config : Config) :
  Exists (fun c => (255 < c)%N)
         (proxy_username credentials ++ proxy_password credentials) ->
  outcome (get_headers credentials config) = Raise UnicodeEncodeError.
Proof.
  intros Hbig. unfold outcome, run. rewrite get_headers_run.
  destruct (basic_auth_cases (proxy_username credentials)
              (proxy_password credentials))
    as [[_ ->]|[Hsmall _]]; [reflexivity|].
  destruct (not_both_small_and_big _ Hsmall Hbig).
Qed.

Section RequestPaths.

Variable credentials : Credentials.
Variable config : Config.
Variable transport :
  Py.str -> Py.str -> gmap (list N) Py.val -> transport_outcome.
Variables method url : Py.str.
Variable kwargs : gmap (list N) Py.val.

(** X8: whatever the input, [request] calls the transport at most once,
    as the last thing it calls, after the credentials and the config; it
    never retries. *)
Theorem request_calls_shape :
  let log := calls (request credentials config transport method url kwargs) in
  (log = [] \/ log = [GetCredentials] \/ log = [GetCredentials; GetConfig] \/
   exists sent,
     log = [GetCredentials; GetConfig; TransportCall method url sent]) /\
  (length (transport_calls log) <= 1)%nat.
Proof.
  intros log. subst log. unfold calls.
  destruct (request_cases credentials config transport method url kwargs)
    as [[_ ->] | [[_ ->] | [[_ [e [_ ->]]] | [_ H]]]]; cbn [snd].
  - split; [left; reflexivity | cbn; lia].
  - split; [right; left; reflexivity | cbn; lia].
  - split; [right; right; left; reflexivity | cbn; lia].
  - destruct H as [assembled [caller [_ [_ ->]]]]. cbn [snd].
    split; [right; right; right; eexists; reflexivity | cbn; lia].
Qed.

(** X9: a response that [request] returns has [ok] true and is the
    answer to the single transport call made. *)
Theorem request_returns_only_ok (returned : Response) :
  outcome (request credentials config transport method url kwargs)
  = Return returned ->
  ok returned = true /\
  exists sent,
    transport method url sent = Responds returned /\
    calls (request credentials config transport method url kwargs)
    = [GetCredentials; GetConfig; TransportCall method url sent].
Proof.
  unfold outcome, calls.
  destruct (request_cases credentials config transport method url kwargs)
    as [[_ ->] | [[_ ->] | [[_ [e [_ ->]]] | [_ H]]]]; cbn [fst];
    try discriminate.
  destruct H as [assembled [caller [_ [_ ->]]]]. cbn [fst snd].
  destruct (transport method url _) as [r|e|name] eqn:Hr; cbn [settled];
    try discriminate.
  destruct (validate_response r) as [[]|e] eqn:Hvalid; [|discriminate].
  intros [= <-]. split; [apply validate_response_ok; exact Hvalid|].
  eexists. split; [exact Hr | reflexivity].
Qed.

(** X10: when the transport answers with a response whose [ok] is false,
    [request] raises what [validate_response] raises for it: the exception
    of [response.json()] when that is no [ValueError], and otherwise a
    [PlotlyRequestError] with a truthy message, the status code and the
    raw body of the response. *)
Theorem request_failed_response
    (assembled caller : gmap (list N) Py.val) (response : Response) :
  json_given kwargs = false ->
  outcome (get_headers credentials config) = Return assembled ->
  Py.get kwargs (Py.s "headers") (Py.Dict ∅) = Py.Dict caller ->
  transport method url
    (<[ Py.s "headers" := Py.Dict (assembled ∪ caller) ]> kwargs)
  = Responds response ->
  ok response = false ->
  match json response with
  | JsonRaises name =>
      validate_response response = Raise (OtherException name) /\
      outcome (request credentials config transport method url kwargs)
      = Raise (OtherException name)
  | _ =>
      exists message,
        Py.truthy message = true /\
        validate_response response
        = Raise (PlotlyRequestError message (Some (status_code response))
                                    (Py.Bytes (content response))) /\
        outcome (request credentials config transport method url kwargs)
        = Raise (PlotlyRequestError message (Some (status_code response))
                                    (Py.Bytes (content response)))
  end.
Proof.
  intros Hjson Hheaders Hcaller Hresponds Hok. unfold outcome.
  rewrite (request_run_sent _ _ _ _ _ _ assembled caller
             Hjson Hheaders Hcaller).
  rewrite Hresponds. cbn [fst settled].
  pose proof (validate_response_outcome_raise response Hok) as H.
  destruct (json response) as [parsed| |name];
    [destruct H as [message [Hvalid Htruthy]]
    |destruct H as [message [Hvalid Htruthy]]
    |rewrite H; split; reflexivity];
    exists message; rewrite Hvalid;
    (split; [exact Htruthy | split; reflexivity]).
Qed.

End RequestPaths.

Lemma demo_success_returned :
  outcome (request Demo.creds Demo.proxy_off (Demo.answering Demo.success)
             (Py.s "get") Demo.url ∅)
  = Return Demo.success.
Proof.
  unfold outcome.
  rewrite (request_run_sent _ _ _ _ _ _ _ _
             json_given_empty demo_headers_off get_no_headers).
  reflexivity.
Qed.

Lemma request_returns_only_ok_witness :
  ok Demo.success = true /\
  exists sent,
    Demo.answering Demo.success (Py.s "get") Demo.url sent
    = Responds Demo.success /\
    calls (request Demo.creds Demo.proxy_off (Demo.answering Demo.success)
             (Py.s "get") Demo.url ∅)
    = [GetCredentials; GetConfig; TransportCall (Py.s "get") Demo.url sent].
Proof.
  apply (request_returns_only_ok Demo.creds Demo.proxy_off
           (Demo.answering Demo.success) (Py.s "get") Demo.url ∅
           Demo.success).
  exact demo_success_returned.
Defined.

Lemma request_failed_response_witness :
  exists message,
    Py.truthy message = true /\
    validate_response Demo.not_found
    = Raise (PlotlyRequestError message (Some (status_code Demo.not_found))
                                (Py.Bytes (content Demo.not_found))) /\
    outcome (request Demo.creds Demo.proxy_off
               (Demo.answering Demo.not_found) (Py.s "get") Demo.url ∅)
    = Raise (PlotlyRequestError message (Some (status_code Demo.not_found))
                                (Py.Bytes (content Demo.not_found))).
Proof.
  apply (request_failed_response Demo.creds Demo.proxy_off
           (Demo.answering Demo.not_found) (Py.s "get") Demo.url ∅
           {[ Py.s "content-type" := Py.Str (Py.s "application/json") ]} ∅
           Demo.not_found).
  - exact json_given_empty.
  - exact demo_headers_off.
  - exact get_no_headers.
  - reflexivity.
  - reflexivity.
Defined.

Lemma request_transport_failure_witness :
  exists status content_,
    outcome (request Demo.creds Demo.proxy_off
               (Demo.failing Demo.connection_error) (Py.s "get") Demo.url ∅)
    = Raise (PlotlyRequestError (Py.Str (Py.s "No message"))
                                status content_) /\
    length (transport_calls
              (calls (request Demo.creds Demo.proxy_off
                        (Demo.failing Demo.connection_error) (Py.s "get")
                        Demo.url ∅))) = 1%nat /\
    (status = None /\ content_ = Py.Str (Py.s "No content")).
Proof.
  apply (request_transport_failure Demo.creds Demo.proxy_off
           (Demo.failing Demo.connection_error) (Py.s "get") Demo.url ∅
           {[ Py.s "content-type" := Py.Str (Py.s "application/json") ]} ∅
           Demo.connection_error).
  - exact json_given_empty.
  - exact demo_headers_off.
  - exact get_no_headers.
  - reflexivity.
Defined.

(** X12: a [headers] option that is [None], a boolean or a number makes
    [request] raise [TypeError] from [dict], after the credentials and the
    config have been read and before any transport call. *)
Theorem request_headers_not_iterable (credentials : Credentials)
    (config : Config)
    (transport : Py.str -> Py.str -> gmap (list N) Py.val
                 -> transport_outcome)
    (method url : Py.str) (kwargs : gmap (list N) Py.val) (v : Py.val) :
  json_given kwargs = false ->
  Forall (fun c => (c < 256)%N)
         (proxy_username credentials ++ proxy_password credentials) ->
  kwargs !! Py.s "headers" = Some v ->
  (v = Py.None_ \/ (exists x, v = Py.Bool x) \/ (exists n, v = Py.Int n)
   \/ (exists f, v = Py.Float f)) ->
  run (request credentials config transport method url kwargs)
  = (Raise TypeError, [GetCredentials; GetConfig]).
Proof.
  intros Hjson Hsmall Hv Hkind.
  destruct (get_headers_outcome_small credentials config Hsmall)
    as [proxy_auth [_ Hheaders]].
  apply (request_run_dict_raises _ _ _ _ _ _ _ _ Hjson Hheaders).
  unfold Py.get. rewrite Hv.
  destruct Hkind as [-> | [[x ->] | [[n ->] | [f ->]]]]; reflexivity.
Qed.

Lemma request_headers_not_iterable_witness :
  run (request Demo.creds Demo.proxy_off (Demo.answering Demo.success)
         (Py.s "get") Demo.url {[ Py.s "headers" := Py.None_ ]})
  = (Raise TypeError, [GetCredentials; GetConfig]).
Proof.
  apply (request_headers_not_iterable Demo.creds Demo.proxy_off
           (Demo.answering Demo.success) (Py.s "get") Demo.url
           {[ Py.s "headers" := Py.None_ ]} Py.None_).
  - unfold json_given, Py.get.
    rewrite lookup_singleton_ne by str_neq. reflexivity.
  - repeat constructor.
  - apply lookup_singleton_eq.
  - left. reflexivity.
Defined.

(** X13: when the proxy credentials hold a code point above 255,
    [request] raises [UnicodeEncodeError] without calling the transport,
    whether or not the proxy authorization is switched on. *)
Theorem request_unencodable_proxy_credentials (credentials : Credentials)
    (config : Config)
    (transport : Py.str -> Py.str -> gmap (list N) Py.val
                 -> transport_outcome)
    (method url : Py.str) (kwargs : gmap (list N) Py.val) :
  json_given kwargs = false ->
  Exists (fun c => (255 < c)%N)
         (proxy_username credentials ++ proxy_password credentials) ->
  run (request credentials config transport method url kwargs)
  = (Raise UnicodeEncodeError, [GetCredentials]).
Proof.
  intros Hjson Hbig.
  pose proof (get_headers_outcome_big credentials config Hbig) as Hheaders.
  destruct (request_run_no_headers credentials config transport method url
              kwargs _ Hjson Hheaders) as [Hrun _].
  exact Hrun.
Qed.

Lemma request_unencodable_proxy_credentials_witness :
  run (request Demo.creds_euro Demo.proxy_off (Demo.answering Demo.success)
         (Py.s "get") Demo.url ∅)
  = (Raise UnicodeEncodeError, [GetCredentials]).
Proof.
  apply (request_unencodable_proxy_credentials Demo.creds_euro
           Demo.proxy_off (Demo.answering Demo.success) (Py.s "get")
           Demo.url ∅).
  - exact json_given_empty.
  - apply Exists_app. right. apply Exists_cons_hd. reflexivity.
Defined.

(** X14: the headers the transport receives always say [content-type:
    application/json], whatever the caller gave; with the proxy
    authorization off the caller's [authorization] header, if any, goes
    through untouched, with it on that header is replaced by [basic_auth]
    of the proxy credentials; every other header of the caller goes
    through. *)
Theorem request_sent_headers (credentials : Credentials) (config : Config)
    (transport : Py.str -> Py.str -> gmap (list N) Py.val
                 -> transport_outcome)
    (method url : Py.str) (kwargs caller : gmap (list N) Py.val) :
  json_given kwargs = false ->
  Forall (fun c => (c < 256)%N)
         (proxy_username credentials ++ proxy_password credentials) ->
  Py.get kwargs (Py.s "headers") (Py.Dict ∅) = Py.Dict caller ->
  exists sent merged,
    calls (request credentials config transport method url kwargs)
    = [GetCredentials; GetConfig; TransportCall method url sent] /\
    sent !! Py.s "headers" = Some (Py.Dict merged) /\
    merged !! Py.s "content-type"
    = Some (Py.Str (Py.s "application/json")) /\
    (if plotly_proxy_authorization config
     then exists proxy_auth,
            basic_auth (proxy_username credentials)
                       (proxy_password credentials) = Return proxy_auth /\
            merged !! Py.s "authorization" = Some (Py.Bytes proxy_auth)
     else merged !! Py.s "authorization" = caller !! Py.s "authorization") /\
    (forall key, key <> Py.s "content-type" ->
                 key <> Py.s "authorization" ->
                 merged !! key = caller !! key).
Proof.
  intros Hjson Hsmall Hcaller.
  destruct (get_headers_outcome_small credentials config Hsmall)
    as [proxy_auth [Hauth Hheaders]].
  eexists _, _. unfold calls.
  rewrite (request_run_sent _ _ _ _ _ _ _ caller Hjson Hheaders Hcaller).
  split; [reflexivity|]. split; [apply lookup_insert_eq|].
  destruct (plotly_proxy_authorization config).
  - split; [|split].
    + apply lookup_union_Some_l.
      rewrite lookup_insert_ne by str_neq. apply lookup_singleton_eq.
    + exists proxy_auth. split; [exact Hauth|].
      apply lookup_union_Some_l. apply lookup_insert_eq.
    + intros key Hct Hau. apply lookup_union_r.
      rewrite lookup_insert_ne by congruence.
      apply lookup_singleton_ne. congruence.
  - split; [|split].
    + apply lookup_union_Some_l. apply lookup_singleton_eq.
    + apply lookup_union_r. apply lookup_singleton_ne. str_neq.
    + intros key Hct Hau. apply lookup_union_r.
      apply lookup_singleton_ne. congruence.
Qed.

Lemma request_sent_headers_witness :
  exists sent merged,
    calls (request Demo.creds Demo.proxy_off (Demo.answering Demo.success)
             (Py.s "get") Demo.url ∅)
    = [GetCredentials; GetConfig; TransportCall (Py.s "get") Demo.url sent] /\
    sent !! Py.s "headers" = Some (Py.Dict merged) /\
    merged !! Py.s "content-type"
    = Some (Py.Str (Py.s "application/json")) /\
    merged !! Py.s "authorization"
    = (∅ : gmap (list N) Py.val) !! Py.s "authorization" /\
    (forall key, key <> Py.s "content-type" ->
                 key <> Py.s "authorization" ->
                 merged !! key = (∅ : gmap (list N) Py.val) !! key).
Proof.
  apply (request_sent_headers Demo.creds Demo.proxy_off
           (Demo.answering Demo.success) (Py.s "get") Demo.url ∅ ∅).
  - exact json_given_empty.
  - repeat constructor.
  - exact get_no_headers.
Defined.

(** ** dict on values that are no mapping *)

(** An empty list, [str] or [bytes] as [headers] adds nothing to the
    assembled headers. *)
Example dict_update_empty_iterable (assembled : gmap (list N) Py.val) :
  dict_update (Py.List []) assembled = Return assembled /\
  dict_update (Py.Str []) assembled = Return assembled /\
  dict_update (Py.Bytes []) assembled = Return assembled.
Proof.
  split; [|split; reflexivity].
  cbn. rewrite (right_id ∅ (∪)). reflexivity.
Qed.

(** The [str] ['ab'] iterates over two characters, neither of them a
    pair. *)
Example dict_update_str (assembled : gmap (list N) Py.val) :
  dict_update (Py.Str (Py.s "ab")) assembled = Raise ValueError.
Proof. reflexivity. Qed.

(** A list of pairs gives its entries, a later pair winning over an
    earlier one, and the assembled headers win over both. *)
Example dict_update_pairs :
  dict_update
    (Py.List [Py.List [Py.Str (Py.s "x"); Py.Int 1];
              Py.Str (Py.s "yz");
              Py.List [Py.Str (Py.s "x"); Py.Int 2];
              Py.List [Py.Str (Py.s "content-type");
                       Py.Str (Py.s "text/plain")]])
    {[ Py.s "content-type" := Py.Str (Py.s "application/json") ]}
  = Return (<[ Py.s "x" := Py.Int 2 ]>
              (<[ Py.s "y" := Py.Str (Py.s "z") ]>
                 {[ Py.s "content-type"
                    := Py.Str (Py.s "application/json") ]})).
Proof. vm_compute. reflexivity. Qed.

(** A list with an item that is no pair raises: [ValueError] for a wrong
    length, [TypeError] for an item that does not iterate. *)
Example dict_update_bad_items (assembled : gmap (list N) Py.val) :
  dict_update (Py.List [Py.List [Py.Str (Py.s "x")]]) assembled
  = Raise ValueError /\
  dict_update (Py.List [Py.Int 1]) assembled = Raise TypeError.
Proof. split; reflexivity. Qed.
